(** * luke/fabfile.py: the deployment tasks as a shallow embedding

    The fabfile is a script of calls to an external transport (Fabric's
    [run], fabutils' [ulocal], [urun] and [ursync_project]).  A task is
    embedded as a computation in a reader/state/error monad:

    - the reader part is the stack of context managers the call is made
      under ([cmd_msg], [cd], [shell_env], [prefix]);
    - the state part is the outside world, owned by the transport, and the
      log of the calls made so far;
    - the error part is Fabric's [abort]: a failed call or a failed
      [require] ends the task.

    The transport itself is a parameter: [exec] decides, for every call,
    whether it exits with status zero and what it prints. *)

From Stdlib Require Import Ascii String Bool Arith Lia.
From stdpp Require Import base option list strings gmap fin_maps.

(** ** Python values that reach the tasks as arguments *)

Inductive PyVal :=
| PyNone
| PyBool (b : bool)
| PyStr (s : string).

(** Python truthiness, as tested by [if upgrade] and [if watch]. *)
Definition truthy (v : PyVal) : bool :=
  match v with
  | PyNone => false
  | PyBool b => b
  | PyStr s => negb (String.eqb s "")
  end.

(** [posixpath.join] on two components, and [os.path.join] on a list. *)
Definition starts_with_slash (s : string) : bool :=
  match s with
  | String c _ => Ascii.eqb c "/"
  | EmptyString => false
  end.

Fixpoint ends_with_slash (s : string) : bool :=
  match s with
  | EmptyString => false
  | String c EmptyString => Ascii.eqb c "/"
  | String _ s' => ends_with_slash s'
  end.

Definition path_join2 (path b : string) : string :=
  if starts_with_slash b then b
  else if String.eqb path "" || ends_with_slash path then path +:+ b
  else path +:+ "/" +:+ b.

Definition os_path_join (a : string) (p : list string) : string :=
  fold_left path_join2 p a.

(** ** The module-level [project_conf] dictionary *)

Record Tools := { stylus : bool; bower : bool }.
Record ProjectConf := { name : string; tools : Tools }.

Definition project_conf : ProjectConf :=
  {| name := "luke"; tools := {| stylus := true; bower := false |} |}.

(** ** Fabric's [env] *)

Record Env := {
  env_name : option string;
  hosts : list string;
  user : option string;
  group : option string;
  site_dir : option string;
  django_settings : option string;
  maintenance_dir : option string
}.

Inductive Key :=
| Kenv_name | Khosts | Kuser | Kgroup | Ksite_dir | Kdjango_settings
| Kmaintenance_dir.

(** [require] counts a key as missing when it is absent from [env] or bound
    to an empty container; [hosts] is the only container among the keys. *)
Definition is_set (v : option string) : bool :=
  match v with Some _ => true | None => false end.

Definition provided (e : Env) (k : Key) : bool :=
  match k with
  | Kenv_name => is_set (env_name e)
  | Khosts => match hosts e with [] => false | _ :: _ => true end
  | Kuser => is_set (user e)
  | Kgroup => is_set (group e)
  | Ksite_dir => is_set (site_dir e)
  | Kdjango_settings => is_set (django_settings e)
  | Kmaintenance_dir => is_set (maintenance_dir e)
  end.

(** ** Calls to the transport and the contexts they are made under *)

Record Banner := { b_msg : string; b_grouped : bool; b_spaces : nat }.

(** One frame per open [with] block; a context is the stack of the open
    blocks, outermost first. *)
Inductive Frame :=
| InMsg (b : Banner)                        (* [with cmd_msg(...)] *)
| InDir (path : string)                     (* [with cd(...)] *)
| InEnv (vars : list (string * string))     (* [with shell_env(...)] *)
| InPrefix (command : string).              (* [with prefix(...)] *)

Abbreviation Ctx := (list Frame).

Definition top_ctx : Ctx := [].

Definition banners (c : Ctx) : list Banner :=
  omap (fun f => match f with InMsg b => Some b | _ => None end) c.
Definition cwd (c : Ctx) : list string :=
  omap (fun f => match f with InDir d => Some d | _ => None end) c.
Definition prefixes (c : Ctx) : list string :=
  omap (fun f => match f with InPrefix p => Some p | _ => None end) c.

Record RsyncArgs := {
  local_dir : string;
  remote_dir : string;
  delete : bool;
  default_opts : string;
  extra_opts : string;
  exclude : list string
}.

Inductive Call :=
| ULocal (cmd : string) (capture : bool)
| URun (cmd : string)
| Run (cmd : string)
| URsync (a : RsyncArgs)
| Puts (text : string) (show_prefix : bool).

(** A logged call: where it was made, what it was, and what the transport
    printed ([None] when it exited non-zero). *)
Record Step := { s_ctx : Ctx; s_call : Call; s_out : option string }.

Definition s_ok (s : Step) : bool :=
  match s_out s with Some _ => true | None => false end.

#[global] Instance Banner_eq_dec : EqDecision Banner.
Proof. solve_decision. Defined.
#[global] Instance Frame_eq_dec : EqDecision Frame.
Proof. solve_decision. Defined.
#[global] Instance RsyncArgs_eq_dec : EqDecision RsyncArgs.
Proof. solve_decision. Defined.
#[global] Instance Call_eq_dec : EqDecision Call.
Proof. solve_decision. Defined.
#[global] Instance Step_eq_dec : EqDecision Step.
Proof. solve_decision. Defined.

Inductive Outcome (W : Type) :=
| Exit0 (out : string) (w : W)
| ExitErr (w : W).
Arguments Exit0 {W} out w.
Arguments ExitErr {W} w.

Inductive Failure :=
| MissingKeys (ks : list Key)
| AttributeError (k : Key)
| NonZeroExit (c : Ctx) (call : Call).

Inductive Res (A : Type) :=
| Ok (a : A)
| Aborted (f : Failure).
Arguments Ok {A} a.
Arguments Aborted {A} f.

Record St (W : Type) := { world : W; trace : list Step }.
Arguments world {W} s.
Arguments trace {W} s.

(** ** Helpers the fabfile imports from fabutils and Fabric

    Their code is not part of the fabfile; the tasks are parametric in
    them. *)
Record Lib := {
  join : list string -> string;
  options : list (string * PyVal) -> string;
  arguments : list string -> string;
  boolean : PyVal -> bool;
  white : string -> bool -> string;
  green : string -> bool -> string;
  SUCCESS_ART : string;
  realpath : string -> string
}.

(** ** The task monad *)

Definition M (W A : Type) : Type := Ctx -> St W -> Res A * St W.

Definition ret {W A} (a : A) : M W A := fun _ st => (Ok a, st).

Definition bind {W A B} (m : M W A) (k : A -> M W B) : M W B :=
  fun ctx st =>
    match m ctx st with
    | (Ok a, st') => k a ctx st'
    | (Aborted f, st') => (Aborted f, st')
    end.

Definition abort {W A} (f : Failure) : M W A := fun _ st => (Aborted f, st).

Declare Scope task_scope.
Delimit Scope task_scope with task.
Notation "x <- m ;; k" := (bind m (fun x => k))
  (at level 100, m at next level, right associativity) : task_scope.
Notation "m ;; k" := (bind m (fun _ => k))
  (at level 100, right associativity) : task_scope.
Open Scope task_scope.

Definition in_ctx {W A} (f : Ctx -> Ctx) (m : M W A) : M W A :=
  fun ctx st => m (f ctx) st.

(** [with cmd_msg(message, grouped, spaces):], as far as control flow goes. *)
Definition cmd_msg {W A} (message : string) (grouped : bool) (spaces : nat)
    (body : M W A) : M W A :=
  in_ctx (fun c => c ++ [InMsg {| b_msg := message; b_grouped := grouped;
                                  b_spaces := spaces |}]) body.

Definition cd {W A} (path : string) (body : M W A) : M W A :=
  in_ctx (fun c => c ++ [InDir path]) body.

Definition shell_env {W A} (vars : list (string * string)) (body : M W A)
    : M W A :=
  in_ctx (fun c => c ++ [InEnv vars]) body.

Definition prefix {W A} (command : string) (body : M W A) : M W A :=
  in_ctx (fun c => c ++ [InPrefix command]) body.

Definition log {W} (st : St W) (w : W) (s : Step) : St W :=
  {| world := w; trace := trace st ++ [s] |}.

Section Tasks.
Context {W : Type}.
Variable exec : Ctx -> Call -> W -> Outcome W.
Variable lib : Lib.
Variable env : Env.

(** A call to the transport: logged, and fatal when it fails. *)
Definition call (c : Call) : M W string :=
  fun ctx st =>
    match exec ctx c (world st) with
    | Exit0 out w =>
        (Ok out, log st w {| s_ctx := ctx; s_call := c; s_out := Some out |})
    | ExitErr w =>
        (Aborted (NonZeroExit ctx c),
         log st w {| s_ctx := ctx; s_call := c; s_out := None |})
    end.

Definition ulocal (cmd : string) (capture : bool) : M W string :=
  call (ULocal cmd capture).
Definition urun (cmd : string) : M W string := call (URun cmd).
Definition run (cmd : string) : M W string := call (Run cmd).
Definition ursync_project (a : RsyncArgs) : M W string := call (URsync a).

(** [puts] only writes to the operator's console. *)
Definition puts (text : string) (show_prefix : bool) : M W unit :=
  fun ctx st =>
    (Ok tt, log st (world st)
              {| s_ctx := ctx; s_call := Puts text show_prefix;
                 s_out := Some "" |}).

Definition require (ks : list Key) : M W unit :=
  match List.filter (fun k => negb (provided env k)) ks with
  | [] => ret tt
  | missing => abort (MissingKeys missing)
  end.

(** [env.<key>]: an [AttributeError] when the key is not set. *)
Definition attr (k : Key) (v : option string) : M W string :=
  match v with
  | Some s => ret s
  | None => abort (AttributeError k)
  end.

Definition virtualenv {A} (body : M W A) : M W A :=
  require [Ksite_dir; Kdjango_settings] ;;
  d <- attr Ksite_dir (site_dir env) ;;
  s <- attr Kdjango_settings (django_settings env) ;;
  cd d (shell_env [("DJANGO_SETTINGS_MODULE", s)] body).

Definition bower_install : M W unit :=
  virtualenv (prefix "nvm use stable" (shell_env [("CI", "true")] (
    run "bower install" ;; ret tt))).

Definition createdb : M W unit :=
  urun ("createdb " +:+ name project_conf +:+
        " -l en_US.UTF-8 -E UTF8 -T template0") ;; ret tt.

Definition migrate (args : list string) (kwargs : list (string * PyVal))
    : M W unit :=
  virtualenv (
    run (join lib ["python manage.py migrate"; options lib kwargs;
                   arguments lib args]) ;; ret tt).

Definition collectstatic : M W unit :=
  virtualenv (run "python manage.py collectstatic --noinput" ;; ret tt).

Definition bootstrap : M W unit :=
  createdb ;;
  migrate [] [] ;;
  (if bower (tools project_conf) then bower_install else ret tt) ;;
  collectstatic.

Definition install_requirements (upgrade : PyVal) : M W unit :=
  require [Kenv_name; Ksite_dir] ;;
  n <- attr Kenv_name (env_name env) ;;
  let requirements := if String.eqb n "vagrant" then "devel" else n in
  site <- attr Ksite_dir (site_dir env) ;;
  let path :=
    realpath lib (os_path_join site ["requirements"; requirements +:+ ".txt"]) in
  virtualenv (
    run ("pip install -" +:+ (if truthy upgrade then "U" else "") +:+
         "r " +:+ path) ;; ret tt).

Definition register_deployment (commit branch : string) : M W unit :=
  virtualenv (
    run ("opbeat -o $OPBEAT_ORGANIZATION_ID " +:+
         "-a $OPBEAT_APP_ID " +:+
         "-t $OPBEAT_SECRET_TOKEN deployment " +:+
         "--component path:. vcs:git rev:" +:+ commit +:+
         " branch:" +:+ branch +:+ " ") ;; ret tt).

Definition maintenance (state : PyVal) : M W unit :=
  require [Kmaintenance_dir] ;;
  if boolean lib state then
    d <- attr Kmaintenance_dir (maintenance_dir env) ;;
    ursync_project {| local_dir := "./maintenance/"; remote_dir := d;
                      delete := true; default_opts := "-chrtvzP";
                      extra_opts := "--chmod=750"; exclude := [] |} ;;
    d <- attr Kmaintenance_dir (maintenance_dir env) ;;
    cd d (g <- attr Kgroup (group env) ;;
          run ("chgrp -R " +:+ g +:+ " .") ;; ret tt)
  else
    d <- attr Kmaintenance_dir (maintenance_dir env) ;;
    cd d (run "rm -rf ./*" ;; ret tt).

Definition upload_exclude : list string :=
  ["*.pyc"; "env/"; "cover/"; "*.style"; "bower_components"].

Definition deploy (git_ref : string) (upgrade : PyVal) : M W unit :=
  require [Khosts; Kuser; Kgroup; Ksite_dir; Kdjango_settings] ;;
  let message := white lib ("Creating git archive from " +:+ git_ref) true in
  snap <- cmd_msg message false 0 (
    repo <- ulocal "basename `git rev-parse --show-toplevel`" true ;;
    commit <- ulocal ("git rev-parse --short " +:+ git_ref) true ;;
    branch <- ulocal "git rev-parse --abbrev-ref HEAD" true ;;
    let tmp_dir := "/tmp/blob-" +:+ repo +:+ "-" +:+ commit +:+ "/" in
    ulocal ("rm -fr " +:+ tmp_dir) false ;;
    ulocal ("mkdir " +:+ tmp_dir) false ;;
    ulocal ("git archive " +:+ commit +:+ " ./src | tar -xC " +:+ tmp_dir
            +:+ " --strip 1") false ;;
    ret (commit, branch, tmp_dir)) ;;
  let '(commit, branch, tmp_dir) := snap in
  cmd_msg (white lib "Enabling maintenance mode" true) false 0 (
    maintenance (PyStr "on")) ;;
  cmd_msg (white lib "Uploading code to server" true) false 0 (
    site <- attr Ksite_dir (site_dir env) ;;
    ursync_project {| local_dir := tmp_dir; remote_dir := site;
                      delete := true; default_opts := "-chrtvzP";
                      extra_opts := "--chmod=750";
                      exclude := upload_exclude |}) ;;
  let message := white lib "Running deployment tasks" true in
  cmd_msg message true 0 (
    virtualenv (
      cmd_msg "Installing Python requirements with pip" false 2 (
        install_requirements upgrade) ;;
      cmd_msg "Migrating database" false 2 (
        migrate [] [("noinput", PyBool true)]) ;;
      cmd_msg "Installing bower components" false 2 (
        bower_install) ;;
      cmd_msg "Collecting static files" false 2 (
        collectstatic) ;;
      cmd_msg "Setting file permissions" false 2 (
        g <- attr Kgroup (group env) ;;
        run ("chgrp -R " +:+ g +:+ " .") ;;
        g <- attr Kgroup (group env) ;;
        run ("chgrp -R " +:+ g +:+ " ../media")) ;;
      cmd_msg "Restarting webserver" false 2 (
        run "touch ../reload") ;;
      cmd_msg "Restarting celery workers" false 2 (
        u <- attr Kuser (user env) ;;
        run ("sudo /usr/bin/supervisorctl restart " +:+ u +:+ "-celeryd")) ;;
      cmd_msg "Registering deployment" false 2 (
        register_deployment commit branch))) ;;
  cmd_msg (white lib "Disabling maintenance mode" true) false 0 (
    maintenance (PyStr "off")) ;;
  let message := white lib "Cleaning up..." true in
  cmd_msg message false 0 (
    ulocal ("rm -fr " +:+ tmp_dir) false) ;;
  puts (green lib (SUCCESS_ART lib) false) false ;;
  puts (white lib ("Code from " +:+ git_ref +:+
                   " was succesfully deployed to host " +:+
                   String.concat ", " (hosts env)) true) false.

(** A task started by the operator: no context manager is open and the
    log is empty. *)
Definition start (w : W) : St W := {| world := w; trace := [] |}.
Definition run_task {A} (m : M W A) (w : W) : Res A * St W :=
  m top_ctx (start w).

End Tasks.

(** ** The other tasks of the fabfile *)
Section OtherTasks.
Context {W : Type}.
Variable exec : Ctx -> Call -> W -> Outcome W.
Variable lib : Lib.
Variable env : Env.

Definition styluscompile (watch : PyVal) : M W unit :=
  let watch_config := if truthy watch then "-w" else "" in
  virtualenv env (prefix "nvm use stable" (shell_env [("CI", "true")] (
    run exec ("stylus -c " +:+ watch_config +:+ " assets/css/custom.styl") ;;
    ret tt))).

Definition checkstylus : M W unit :=
  if stylus (tools project_conf) then styluscompile (PyBool false)
  else ret tt.

Definition bower_install_package (package : string) : M W unit :=
  virtualenv env (prefix "nvm use stable" (shell_env [("CI", "true")] (
    run exec ("bower install " +:+ package +:+ " --save") ;; ret tt))).

Definition startapp (app_name : string) : M W unit :=
  if truthy (PyStr app_name) then
    virtualenv env (
      run exec ("python manage.py startapp " +:+ app_name) ;; ret tt)
  else ret tt.

Definition createsuperuser : M W unit :=
  virtualenv env (run exec "python manage.py createsuperuser" ;; ret tt).

Definition runtests (app : string) : M W unit :=
  virtualenv env (
    run exec ("coverage run --source='.' manage.py test " +:+ app) ;;
    run exec "coverage html --omit=luke/settings/*,luke/wsgi.py" ;;
    ret tt).

Definition dropdb : M W unit :=
  urun exec ("dropdb " +:+ name project_conf) ;; ret tt.

Definition resetdb : M W unit :=
  dropdb ;;
  createdb exec ;;
  migrate exec lib env [] [].

Definition loaddata (args : list string) : M W unit :=
  virtualenv env (
    run exec (join lib ["python manage.py loaddata"; arguments lib args]) ;;
    ret tt).

Definition makemigrations (args : list string)
    (kwargs : list (string * PyVal)) : M W unit :=
  virtualenv env (
    run exec (join lib ["python manage.py makemigrations";
                        options lib kwargs; arguments lib args]) ;;
    ret tt).

Definition runserver : M W unit :=
  checkstylus ;;
  virtualenv env (
    run exec "python manage.py runserver_plus 0.0.0.0:8000" ;; ret tt).

End OtherTasks.

(** A log in which a call that exits non-zero is the last one, with the
    task aborted on it. *)
Definition fail_fast {A} (r : Res A) (tr : list Step) : Prop :=
  forall i s, tr !! i = Some s -> s_ok s = false ->
    r = Aborted (NonZeroExit (s_ctx s) (s_call s)) /\ length tr = S i.

(** A run that goes along a list of commands: what it calls is an initial
    segment of the list, all of it when the task succeeds, and it stops at
    the first call that exits non-zero. *)
Definition runs_along (P : list Call) (r : Res unit) (tr : list Step)
    : Prop :=
  (exists rest, P = (s_call <$> tr) ++ rest /\ (r = Ok tt -> rest = [])) /\
  fail_fast r tr.

(** ** The calls of a deployment, phase by phase

    What [deploy] is expected to call, and under which [with] blocks, as a
    function of what the version control queries answered.  Keys that are
    not set read as the empty string here; [deploy] aborts before it would
    use them. *)
Abbreviation Plan := (list (list Frame * Call)).

Section Layout.
Variable lib : Lib.
Variable env : Env.
Variables (git_ref : string) (upgrade : PyVal).
Variables (repo commit branch : string).

Definition tmp_dir_of : string :=
  "/tmp/blob-" +:+ repo +:+ "-" +:+ commit +:+ "/".

Let site := default "" (site_dir env).
Let settings := default "" (django_settings env).
Let mdir := default "" (maintenance_dir env).
Let grp := default "" (group env).
Let usr := default "" (user env).

Definition requirements_path : string :=
  let n := default "" (env_name env) in
  realpath lib (os_path_join site
    ["requirements"; (if String.eqb n "vagrant" then "devel" else n) +:+ ".txt"]).

Definition phase_banner (msg : string) (grouped : bool) : Frame :=
  InMsg {| b_msg := white lib msg true; b_grouped := grouped; b_spaces := 0 |}.
Definition step_banner (msg : string) : Frame :=
  InMsg {| b_msg := msg; b_grouped := false; b_spaces := 2 |}.

(** The frames [with virtualenv():] opens. *)
Definition venv : Ctx :=
  [InDir site; InEnv [("DJANGO_SETTINGS_MODULE", settings)]].

Definition snapshot_calls : Plan :=
  let b := [phase_banner ("Creating git archive from " +:+ git_ref) false] in
  [ (b, ULocal "basename `git rev-parse --show-toplevel`" true);
    (b, ULocal ("git rev-parse --short " +:+ git_ref) true);
    (b, ULocal "git rev-parse --abbrev-ref HEAD" true);
    (b, ULocal ("rm -fr " +:+ tmp_dir_of) false);
    (b, ULocal ("mkdir " +:+ tmp_dir_of) false);
    (b, ULocal ("git archive " +:+ commit +:+ " ./src | tar -xC "
                +:+ tmp_dir_of +:+ " --strip 1") false) ].

Definition maintenance_sync : RsyncArgs :=
  {| local_dir := "./maintenance/"; remote_dir := mdir; delete := true;
     default_opts := "-chrtvzP"; extra_opts := "--chmod=750";
     exclude := [] |}.

Definition maintenance_on_calls : Plan :=
  let b := phase_banner "Enabling maintenance mode" false in
  [ ([b], URsync maintenance_sync);
    ([b; InDir mdir], Run ("chgrp -R " +:+ grp +:+ " .")) ].

Definition upload_sync : RsyncArgs :=
  {| local_dir := tmp_dir_of; remote_dir := site; delete := true;
     default_opts := "-chrtvzP"; extra_opts := "--chmod=750";
     exclude := ["*.pyc"; "env/"; "cover/"; "*.style"; "bower_components"] |}.

Definition upload_calls : Plan :=
  [ ([phase_banner "Uploading code to server" false], URsync upload_sync) ].

Definition pip_command : string :=
  "pip install -" +:+ (if truthy upgrade then "U" else "") +:+ "r " +:+
  requirements_path.
Definition migrate_command : string :=
  join lib ["python manage.py migrate";
            options lib [("noinput", PyBool true)]; arguments lib []].
Definition register_command : string :=
  "opbeat -o $OPBEAT_ORGANIZATION_ID " +:+ "-a $OPBEAT_APP_ID " +:+
  "-t $OPBEAT_SECRET_TOKEN deployment " +:+
  "--component path:. vcs:git rev:" +:+ commit +:+
  " branch:" +:+ branch +:+ " ".

(** A provisioning step runs under the phase banner, the environment
    activated by [deploy], and its own banner. *)
Definition under (msg : string) : Ctx :=
  [phase_banner "Running deployment tasks" true] ++ venv ++
  [step_banner msg].

Definition provision_calls : Plan :=
  [ (under "Installing Python requirements with pip" ++ venv,
     Run pip_command);
    (under "Migrating database" ++ venv, Run migrate_command);
    (under "Installing bower components" ++ venv ++
       [InPrefix "nvm use stable"; InEnv [("CI", "true")]],
     Run "bower install");
    (under "Collecting static files" ++ venv,
     Run "python manage.py collectstatic --noinput");
    (under "Setting file permissions",
     Run ("chgrp -R " +:+ grp +:+ " ."));
    (under "Setting file permissions",
     Run ("chgrp -R " +:+ grp +:+ " ../media"));
    (under "Restarting webserver", Run "touch ../reload");
    (under "Restarting celery workers",
     Run ("sudo /usr/bin/supervisorctl restart " +:+ usr +:+ "-celeryd"));
    (under "Registering deployment" ++ venv, Run register_command) ].

Definition maintenance_off_calls : Plan :=
  [ ([phase_banner "Disabling maintenance mode" false; InDir mdir],
     Run "rm -rf ./*") ].

Definition cleanup_calls : Plan :=
  [ ([phase_banner "Cleaning up..." false],
     ULocal ("rm -fr " +:+ tmp_dir_of) false) ].

Definition report_calls : Plan :=
  [ ([], Puts (green lib (SUCCESS_ART lib) false) false);
    ([], Puts (white lib ("Code from " +:+ git_ref +:+
                          " was succesfully deployed to host " +:+
                          String.concat ", " (hosts env)) true) false) ].

(** The order in which [deploy] goes through its phases. *)
Definition deploy_plan : Plan :=
  snapshot_calls ++ maintenance_on_calls ++ upload_calls ++
  provision_calls ++ maintenance_off_calls ++ cleanup_calls ++
  report_calls.

(** The order of the overview: upload first, maintenance mode second. *)
Definition overview_plan : Plan :=
  snapshot_calls ++ upload_calls ++ maintenance_on_calls ++
  provision_calls ++ maintenance_off_calls ++ cleanup_calls ++
  report_calls.

End Layout.

(** What a log says was called, and what call [i] printed. *)
Definition entry (s : Step) : Ctx * Call := (s_ctx s, s_call s).
Definition calls (tr : list Step) : Plan := entry <$> tr.
Definition out_at (i : nat) (tr : list Step) : string :=
  default "" (tr !! i ≫= s_out).

(** ** The shape of every run of [deploy] *)

Definition exit_failure (f : Failure) : bool :=
  match f with NonZeroExit _ _ => true | _ => false end.

(** Where [deploy] can stop on an unset key: in front of which call, and
    for which key. *)
Definition stuck_table : list (nat * Key) :=
  [ (0, Khosts); (0, Kuser); (0, Kgroup); (0, Ksite_dir);
    (0, Kdjango_settings); (6, Kmaintenance_dir); (9, Kenv_name) ].

(** A run against a plan [P]: it makes the calls of [P], all of them exit
    with status zero, and it succeeds; or it stops in front of a call on an
    unset key; or a call exits non-zero and is the last one made. *)
Inductive Shape (env : Env) (P : Plan) : Res unit -> list Step -> Prop :=
| ShapeOk tr :
    calls tr = P -> forallb s_ok tr = true ->
    Shape env P (Ok tt) tr
| ShapeStuck f k tr :
    exit_failure f = false ->
    (length tr, k) ∈ stuck_table -> provided env k = false ->
    calls tr = take (length tr) P -> forallb s_ok tr = true ->
    Shape env P (Aborted f) tr
| ShapeExit c k tr :
    calls tr = take (length tr) P -> forallb s_ok tr = true ->
    P !! length tr = Some (c, k) ->
    Shape env P (Aborted (NonZeroExit c k))
      (tr ++ [{| s_ctx := c; s_call := k; s_out := None |}]).

(** ** The remote directories

    The claims about the maintenance directory and the site directory speak
    of files, so the transport gets a model here: a world of local and
    remote directory trees on which [ursync_project] and the two shell
    commands of [maintenance] act. *)
Module Fs.

(** A remote file: what is in it and which group owns it.  A tree maps
    the path of each file, relative to the root of the tree, to the
    file. *)
Record File := { content : string; owner_group : string }.

Record World := {
  local_fs : gmap string (gmap string string);
  remote_fs : gmap string (gmap string File)
}.

Definition set_remote (w : World) (d : string) (t : gmap string File)
    : World :=
  {| local_fs := local_fs w; remote_fs := <[d := t]> (remote_fs w) |}.

(** The entry of the tree's root a path goes through is hidden when its
    name starts with a dot; the shell pattern [./*] does not match it. *)
Definition hidden (p : string) : bool :=
  match p with
  | String c _ => Ascii.eqb c "."
  | EmptyString => false
  end.

(** [rm -rf ./*] in the root of a tree: every entry the pattern matches
    goes, with all that is below it. *)
Definition rm_rf_star (t : gmap string File) : gmap string File :=
  filter (fun kv => hidden kv.1 = true) t.

(** [chgrp -R g .] in the root of a tree. *)
Definition chgrp_R (g : string) (t : gmap string File) : gmap string File :=
  (fun f => {| content := content f; owner_group := g |}) <$> t.

Fixpoint strip_prefix (p s : string) : option string :=
  match p, s with
  | EmptyString, _ => Some s
  | String a p', String b s' =>
      if Ascii.eqb a b then strip_prefix p' s' else None
  | String _ _, EmptyString => None
  end.

Fixpoint strip_suffix (suf s : string) : option string :=
  if String.eqb s suf then Some EmptyString
  else match s with
       | EmptyString => None
       | String c s' => String c <$> strip_suffix suf s'
       end.

(** The group in a command of the form [chgrp -R <group> .] *)
Definition chgrp_target (cmd : string) : option string :=
  strip_prefix "chgrp -R " cmd ≫= strip_suffix " .".

Definition shell_effect (cmd : string) (t : gmap string File)
    : gmap string File :=
  if String.eqb cmd "rm -rf ./*" then rm_rf_star t
  else match chgrp_target cmd with
       | Some g => chgrp_R g t
       | None => t
       end.

(** The directory a remote command runs in: Fabric's [cd] replaces the
    current directory by an absolute path and appends a relative one. *)
Definition enter (cur : option string) (d : string) : option string :=
  match cur with
  | Some c => if starts_with_slash d then Some d else Some (c +:+ "/" +:+ d)
  | None => Some d
  end.
Definition remote_cwd (c : Ctx) : option string :=
  fold_left enter (cwd c) None.

Section Transfer.
(** Whether an exclude pattern covers a path is left to the
    synchronisation tool, and so is the group a new file gets. *)
Variable matches : string -> string -> bool.
Variable login_group : string.

Definition excluded (patterns : list string) (p : string) : bool :=
  List.existsb (fun pat => matches pat p) patterns.

(** Modelled from the spec: the one-way synchronisation behind
    [ursync_project], which is not part of the fabfile.  Files of the
    local tree that no exclude pattern covers are sent; a remote file
    covered by an exclude pattern is left alone; with [delete], a
    remote file that is neither sent nor excluded is removed. *)
Definition rsync_tree (a : RsyncArgs) (l : gmap string string)
    (r : gmap string File) : gmap string File :=
  map_imap (fun p c =>
              if excluded (exclude a) p then None
              else Some {| content := c;
                           owner_group :=
                             match r !! p with
                             | Some f => owner_group f
                             | None => login_group
                             end |}) l
  ∪ map_imap (fun p f =>
                if excluded (exclude a) p || negb (delete a) then Some f
                else None) r.

(** The transport of the model.  A synchronisation fails when the
    local directory is missing, a remote command when its directory
    is; local commands and commands run outside any [cd] do not touch
    the modelled trees. *)
Definition exec_fs (c : Ctx) (k : Call) (w : World) : Outcome World :=
  match k with
  | URsync a =>
      match local_fs w !! local_dir a with
      | Some l =>
          Exit0 "" (set_remote w (remote_dir a)
                      (rsync_tree a l
                         (default ∅ (remote_fs w !! remote_dir a))))
      | None => ExitErr w
      end
  | Run cmd =>
      match remote_cwd c with
      | Some d =>
          match remote_fs w !! d with
          | Some t => Exit0 "" (set_remote w d (shell_effect cmd t))
          | None => ExitErr w
          end
      | None => Exit0 "" w
      end
  | _ => Exit0 "" w
  end.

End Transfer.

(** The maintenance directory after [maintenance('on')]: the files of the
    local maintenance page, owned by the configured group. *)
Definition populated (g : string) (l : gmap string string)
    : gmap string File :=
  (fun c => {| content := c; owner_group := g |}) <$> l.

End Fs.

(** ** A closed instance, to run the tasks on *)
Module Sample.

Definition esc : string := String (Ascii.ascii_of_nat 27) "".

(** Fabric's [colors._wrap_with]. *)
Definition wrap_with (code text : string) (bold : bool) : string :=
  esc +:+ "[" +:+ (if bold then "1;" +:+ code else code) +:+ "m" +:+ text
  +:+ esc +:+ "[0m".

Definition option_text (kv : string * PyVal) : string :=
  match kv with
  | (k, PyBool true) => "--" +:+ k
  | (k, PyStr v) => "--" +:+ k +:+ "=" +:+ v
  | (k, _) => ""
  end.

Definition words (l : list string) : string :=
  String.concat " " (List.filter (fun s => negb (String.eqb s "")) l).

Definition token (v : PyVal) : bool :=
  match v with
  | PyBool b => b
  | PyStr s => List.existsb (String.eqb s) ["on"; "true"; "True"; "yes"; "1"]
  | PyNone => false
  end.

Definition lib : Lib :=
  {| join := words;
     options := fun kw => words (List.map option_text kw);
     arguments := words;
     boolean := token;
     white := wrap_with "37";
     green := wrap_with "32";
     SUCCESS_ART := "DEPLOYED";
     realpath := fun p => p |}.

Definition env : Env :=
  {| env_name := Some "production";
     hosts := ["host1"];
     user := Some "luke";
     group := Some "www-data";
     site_dir := Some "/srv/luke/site";
     django_settings := Some "luke.settings.production";
     maintenance_dir := Some "/srv/luke/maintenance" |}.

(** A transport on which every command exits with status zero; the
    version control queries answer [luke], [abc1234] and [main]. *)
Definition answers (c : Call) : string :=
  match c with
  | ULocal cmd true =>
      if String.eqb cmd "basename `git rev-parse --show-toplevel`" then "luke"
      else if String.eqb cmd "git rev-parse --short v1.2.0" then "abc1234"
      else if String.eqb cmd "git rev-parse --abbrev-ref HEAD" then "main"
      else ""
  | _ => ""
  end.

Definition exec_ok (_ : Ctx) (c : Call) (w : unit) : Outcome unit :=
  Exit0 (answers c) w.

(** The same transport, except that the migration exits non-zero. *)
Definition exec_migrate_fails (_ : Ctx) (c : Call) (w : unit) : Outcome unit :=
  match c with
  | Run cmd =>
      if String.eqb cmd "python manage.py migrate --noinput" then ExitErr w
      else Exit0 (answers c) w
  | _ => Exit0 (answers c) w
  end.

End Sample.

(** ** Closed inputs for the claims *)
Module Closed.
Import Sample.

(** The log of [deploy("v1.2.0")] on the transport that never fails,
    and the result and log on the one where the migration fails. *)
Definition ok_state : St unit :=
  Eval vm_compute in
    (run_task (deploy exec_ok lib env "v1.2.0" (PyBool false)) tt).2.

Definition failing_result : Res unit :=
  Eval vm_compute in
    (run_task (deploy exec_migrate_fails lib env "v1.2.0" (PyBool false))
       tt).1.

Definition failing_state : St unit :=
  Eval vm_compute in
    (run_task (deploy exec_migrate_fails lib env "v1.2.0" (PyBool false))
       tt).2.

Definition nth_step (i : nat) (tr : list Step) : Step :=
  default (Build_Step [] (Puts "" false) None) (tr !! i).

(** A remote maintenance directory with a hidden file in it. *)
Definition page : gmap string string :=
  {[ "index.html" := "<h1>Back soon</h1>" ]}.

Definition hidden_world : Fs.World :=
  {| Fs.local_fs := {[ "./maintenance/" := page ]};
     Fs.remote_fs :=
       {[ "/srv/luke/maintenance" :=
            {[ "index.html" := {| Fs.content := "<h1>Back soon</h1>";
                                  Fs.owner_group := "www-data" |};
               ".htaccess" := {| Fs.content := "Require all denied";
                                 Fs.owner_group := "www-data" |} ]} ]} |}.

Definition empty_world : Fs.World :=
  {| Fs.local_fs := {[ "./maintenance/" := page ]};
     Fs.remote_fs := {[ "/srv/luke/maintenance" := ∅ ]} |}.

Definition no_pattern (_ _ : string) : bool := false.

End Closed.

(** ** Environments with keys left unset *)

(** The keys [deploy] requires before anything else, and the keys
    [virtualenv] requires; what [require] reports is the unset ones. *)
Definition deploy_keys : list Key :=
  [Khosts; Kuser; Kgroup; Ksite_dir; Kdjango_settings].

Definition missing_of_venv (env : Env) : list Key :=
  List.filter (fun k => negb (provided env k)) [Ksite_dir; Kdjango_settings].

Module Unset.

(** Fabric's [env] before any environment has been selected. *)
Definition bare_env : Env :=
  {| env_name := None; hosts := []; user := Some "luke"; group := None;
     site_dir := None; django_settings := None; maintenance_dir := None |}.

Definition no_maintenance_dir : Env :=
  {| env_name := Some "production"; hosts := ["host1"];
     user := Some "luke"; group := Some "www-data";
     site_dir := Some "/srv/luke/site";
     django_settings := Some "luke.settings.production";
     maintenance_dir := None |}.

Definition no_env_name : Env :=
  {| env_name := None; hosts := ["host1"];
     user := Some "luke"; group := Some "www-data";
     site_dir := Some "/srv/luke/site";
     django_settings := Some "luke.settings.production";
     maintenance_dir := Some "/srv/luke/maintenance" |}.

Definition no_group : Env :=
  {| env_name := Some "production"; hosts := ["host1"];
     user := Some "luke"; group := None;
     site_dir := Some "/srv/luke/site";
     django_settings := Some "luke.settings.production";
     maintenance_dir := Some "/srv/luke/maintenance" |}.

End Unset.

(** * Proofs *)

Lemma shape_exit_at env P c k tr tr0 :
  tr = tr0 ++ [{| s_ctx := c; s_call := k; s_out := None |}] ->
  calls tr0 = take (length tr0) P -> forallb s_ok tr0 = true ->
  P !! length tr0 = Some (c, k) ->
  Shape env P (Aborted (NonZeroExit c k)) tr.
Proof. intros -> ? ? ?. by constructor. Qed.

(** Symbolic execution of a task: reduce the run to its next call, split on
    what the transport answers, go on. *)
Ltac whd_run H :=
  match type of H with
  | ?X = ?Y =>
      let X' := eval lazy head beta iota zeta delta -[boolean] in X in
      change (X' = Y) in H;
      cbv beta iota delta [log trace world start app top_ctx] in H
  end.

Ltac split_exec H exec :=
  match type of H with
  | context [exec ?c ?k ?w] =>
      let c' := eval cbv beta iota delta [app top_ctx] in c in
      let w' := eval cbv beta iota delta [world log start] in w in
      change (exec c k w) with (exec c' k w') in H;
      let E := fresh "E" in
      destruct (exec c' k w') as [? ?|?] eqn:E; whd_run H
  end.

Ltac stop H := inversion H; subst; clear H.

Ltac by_computation := vm_compute; reflexivity.

Ltac close_exit :=
  lazymatch goal with
  | |- Shape ?env ?P (Aborted (NonZeroExit ?c ?k)) ?tr =>
      let tr0 := eval vm_compute in (removelast tr) in
      apply (shape_exit_at env P c k tr tr0); by_computation
  end.

Ltac close_stuck key :=
  apply (ShapeStuck _ _ _ key);
  [ reflexivity | vm_compute; set_solver | by_computation | by_computation
  | by_computation ].

Section DeployShape.
Context {W : Type}.
Variable exec : Ctx -> Call -> W -> Outcome W.
Variable lib : Lib.
Hypothesis Hon : boolean lib (PyStr "on") = true.
Hypothesis Hoff : boolean lib (PyStr "off") = false.

(** Every run of [deploy] follows the plan fixed by the first three
    answers in its own log. *)
Lemma deploy_shape env git_ref upgrade w r st' :
  run_task (deploy exec lib env git_ref upgrade) w = (r, st') ->
  let tr := trace st' in
  Shape env
    (deploy_plan lib env git_ref upgrade
       (out_at 0 tr) (out_at 1 tr) (out_at 2 tr))
    r tr.
Proof.
  intros H. cbv zeta. destruct env as [en hs u g sd ds md].
  whd_run H.
  destruct hs as [|h hs]; whd_run H; [stop H; close_stuck Khosts|].
  destruct u as [u|]; whd_run H; [|stop H; close_stuck Kuser].
  destruct g as [g|]; whd_run H; [|stop H; close_stuck Kgroup].
  destruct sd as [sd|]; whd_run H; [|stop H; close_stuck Ksite_dir].
  destruct ds as [ds|]; whd_run H; [|stop H; close_stuck Kdjango_settings].
  do 6 (split_exec H exec; [|stop H; close_exit]).
  destruct md as [md|]; whd_run H; [|stop H; close_stuck Kmaintenance_dir].
  rewrite Hon in H; whd_run H.
  do 3 (split_exec H exec; [|stop H; close_exit]).
  destruct en as [en|]; whd_run H; [|stop H; close_stuck Kenv_name].
  do 9 (split_exec H exec; [|stop H; close_exit]).
  rewrite Hoff in H; whd_run H.
  do 2 (split_exec H exec; [|stop H; close_exit]).
  stop H. apply ShapeOk; by_computation.
Qed.
End DeployShape.

(** ** What a shape says about a log *)
Section ShapeFacts.
Variables (env : Env) (P : Plan).

Lemma all_ok_lookup (tr : list Step) i s :
  forallb s_ok tr = true -> tr !! i = Some s -> s_ok s = true.
Proof.
  intros Hall Hs. rewrite forallb_forall in Hall. apply Hall.
  apply list_elem_of_In. by eapply list_elem_of_lookup_2.
Qed.

Lemma calls_length tr : length (calls tr) = length tr.
Proof. unfold calls. by rewrite length_fmap. Qed.

Lemma calls_lookup tr i s : tr !! i = Some s -> calls tr !! i = Some (entry s).
Proof. intros H. unfold calls. by rewrite list_lookup_fmap, H. Qed.

Lemma shape_ok tr :
  Shape env P (Ok tt) tr -> calls tr = P /\ forallb s_ok tr = true.
Proof. by inversion 1. Qed.

(** The calls of a run are an initial segment of the plan. *)
Lemma shape_prefix r tr :
  Shape env P r tr -> exists rest, P = calls tr ++ rest.
Proof.
  destruct 1 as [tr Hc _|f k tr _ _ _ Hc _|c k tr Hc _ Hn].
  - exists []. by rewrite app_nil_r.
  - exists (drop (length tr) P). by rewrite Hc, take_drop.
  - exists (drop (S (length tr)) P).
    unfold calls in *. rewrite fmap_app, Hc. cbn.
    rewrite <- app_assoc. cbn. by rewrite take_drop_middle.
Qed.

Lemma shape_plan_length r tr : Shape env P r tr -> length tr <= length P.
Proof.
  intros [rest ->]%shape_prefix. rewrite length_app, calls_length. lia.
Qed.

(** Call [i] of the log is call [i] of the plan. *)
Lemma shape_entry r tr i s :
  Shape env P r tr -> tr !! i = Some s -> P !! i = Some (entry s).
Proof.
  intros [rest ->]%shape_prefix Hs.
  apply lookup_app_l_Some. by apply calls_lookup.
Qed.

(** A call that exits non-zero is the last call of the run, and the run
    aborts on it. *)
Lemma shape_fail_fast r tr i s :
  Shape env P r tr -> tr !! i = Some s -> s_ok s = false ->
  r = Aborted (NonZeroExit (s_ctx s) (s_call s)) /\ length tr = S i.
Proof.
  destruct 1 as [tr _ Hall|f k tr _ _ _ _ Hall|c k tr _ Hall _];
    intros Hs Hbad.
  - rewrite (all_ok_lookup _ _ _ Hall Hs) in Hbad. discriminate.
  - rewrite (all_ok_lookup _ _ _ Hall Hs) in Hbad. discriminate.
  - destruct (decide (i < length tr)) as [Hlt|Hge].
    + rewrite lookup_app_l in Hs by done.
      rewrite (all_ok_lookup _ _ _ Hall Hs) in Hbad. discriminate.
    + pose proof (lookup_lt_Some _ _ _ Hs) as Hi.
      rewrite length_app in Hi. cbn in Hi.
      assert (i = length tr) as -> by lia.
      rewrite list_lookup_middle in Hs by done. injection Hs as <-.
      split; [done|]. rewrite length_app. cbn. lia.
Qed.

(** After a call that exits with status zero the run makes the next call
    of the plan, unless the plan is over or a key is unset there. *)
Lemma shape_next r tr i s :
  Shape env P r tr -> tr !! i = Some s -> s_ok s = true ->
  S i < length P -> (forall k, (S i, k) ∉ stuck_table) ->
  exists s', tr !! S i = Some s'.
Proof.
  intros HS Hs Hok Hlen Hfree. apply lookup_lt_is_Some_2.
  pose proof (lookup_lt_Some _ _ _ Hs) as Hi.
  destruct HS as [tr Hc _|f k tr _ Hin _ _ _|c k tr _ _ _].
  - rewrite <- Hc, calls_length in Hlen. done.
  - destruct (decide (S i = length tr)) as [Heq|]; [|lia].
    rewrite <- Heq in Hin. by apply Hfree in Hin.
  - rewrite length_app in *. cbn in *.
    destruct (decide (i = length tr)) as [->|]; [|lia].
    rewrite list_lookup_middle in Hs by done. by injection Hs as <-.
Qed.

End ShapeFacts.

Ltac not_in H :=
  repeat (apply elem_of_cons in H as [H|H]; [discriminate H|]);
  by apply elem_of_nil in H.

Lemma deploy_plan_length lib env git_ref upgrade repo commit branch :
  length (deploy_plan lib env git_ref upgrade repo commit branch) = 22.
Proof. reflexivity. Qed.

(** The migration is call 10 of the plan, and the only call made under the
    banner of that step. *)
Lemma migrate_position lib env git_ref upgrade repo commit branch n c k :
  deploy_plan lib env git_ref upgrade repo commit branch !! n = Some (c, k) ->
  step_banner "Migrating database" ∈ c -> n = 10.
Proof.
  intros Hn Hin. unfold step_banner in Hin.
  do 22 (destruct n as [|n];
         [vm_compute in Hn; injection Hn as <- <-;
          first [reflexivity | not_in Hin]|]).
  vm_compute in Hn. discriminate.
Qed.

(** ** The claims about [deploy] *)
Section DeployClaims.
Context {W : Type}.
Variable exec : Ctx -> Call -> W -> Outcome W.
Variable lib : Lib.
Variable env : Env.
Variables (git_ref : string) (upgrade : PyVal).

(** C1, as amended.  A successful [deploy] goes through its phases in
    this order: snapshot, maintenance mode on, upload, provisioning,
    maintenance mode off, cleanup (and then reports).  Maintenance mode
    is switched on before the upload, not after it. *)
Theorem deploy_phase_order w st' :
  boolean lib (PyStr "on") = true ->
  boolean lib (PyStr "off") = false ->
  run_task (deploy exec lib env git_ref upgrade) w = (Ok tt, st') ->
  let tr := trace st' in
  let repo := out_at 0 tr in
  let commit := out_at 1 tr in
  let branch := out_at 2 tr in
  calls tr =
    snapshot_calls lib git_ref repo commit ++
    maintenance_on_calls lib env ++
    upload_calls lib env repo commit ++
    provision_calls lib env upgrade commit branch ++
    maintenance_off_calls lib env ++
    cleanup_calls lib repo commit ++
    report_calls lib env git_ref.
Proof.
  intros Hon Hoff Hrun.
  by destruct (shape_ok _ _ _ (deploy_shape exec lib Hon Hoff _ _ _ _ _ _ Hrun)).
Qed.

(** C2.  The provisioning steps of [deploy] are called in a fixed order:
    pip, migrate, (bower,) collectstatic, the two chgrp, the reload touch
    and the worker restart, the registration.  The commands of every run
    are an initial segment of that list, and of all of it when the run
    succeeds. *)
Theorem provision_step_order w r st' :
  boolean lib (PyStr "on") = true ->
  boolean lib (PyStr "off") = false ->
  run_task (deploy exec lib env git_ref upgrade) w = (r, st') ->
  let tr := trace st' in
  let repo := out_at 0 tr in
  let commit := out_at 1 tr in
  let branch := out_at 2 tr in
  let g := default "" (group env) in
  let u := default "" (user env) in
  exists rest,
    (snapshot_calls lib git_ref repo commit ++
     maintenance_on_calls lib env ++
     upload_calls lib env repo commit).*2 ++
    [ Run (pip_command lib env upgrade);
      Run (migrate_command lib);
      Run "bower install";
      Run "python manage.py collectstatic --noinput";
      Run ("chgrp -R " +:+ g +:+ " .");
      Run ("chgrp -R " +:+ g +:+ " ../media");
      Run "touch ../reload";
      Run ("sudo /usr/bin/supervisorctl restart " +:+ u +:+ "-celeryd");
      Run (register_command commit branch) ] ++
    (maintenance_off_calls lib env ++ cleanup_calls lib repo commit ++
     report_calls lib env git_ref).*2
    = (s_call <$> tr) ++ rest
    /\ (r = Ok tt -> rest = []).
Proof.
  intros Hon Hoff Hrun tr repo commit branch g u.
  pose proof (deploy_shape exec lib Hon Hoff _ _ _ _ _ _ Hrun) as HS.
  cbv zeta in HS. fold tr repo commit branch in HS.
  destruct (shape_prefix _ _ _ _ HS) as [rest Hrest].
  exists (rest.*2). split.
  - transitivity ((deploy_plan lib env git_ref upgrade repo commit branch).*2);
      [reflexivity|].
    rewrite Hrest, fmap_app. f_equal.
    unfold calls. rewrite <- list_fmap_compose. done.
  - intros ->. apply shape_ok in HS as [HP _].
    rewrite <- HP in Hrest. apply (f_equal length) in Hrest.
    rewrite length_app in Hrest. destruct rest; [done|cbn in Hrest; lia].
Qed.

(** C3.  A call that exits non-zero is fatal: it is the last call of the
    run, which aborts on it, so no call is tried again.  When it is the
    migration that fails, the log ends with it: the static files are not
    collected, nothing later is called, [maintenance('off')] is not
    executed and the snapshot directory made by [mkdir] is not removed. *)
Theorem command_failure_is_fatal w r st' :
  boolean lib (PyStr "on") = true ->
  boolean lib (PyStr "off") = false ->
  run_task (deploy exec lib env git_ref upgrade) w = (r, st') ->
  let tr := trace st' in
  let repo := out_at 0 tr in
  let commit := out_at 1 tr in
  forall i s, tr !! i = Some s -> s_ok s = false ->
    (r = Aborted (NonZeroExit (s_ctx s) (s_call s)) /\ length tr = S i) /\
    (step_banner "Migrating database" ∈ s_ctx s ->
     s_call s = Run (migrate_command lib) /\
     calls tr =
       snapshot_calls lib git_ref repo commit ++
       maintenance_on_calls lib env ++
       upload_calls lib env repo commit ++
       [ (under lib env "Installing Python requirements with pip" ++ venv env,
          Run (pip_command lib env upgrade));
         (under lib env "Migrating database" ++ venv env,
          Run (migrate_command lib)) ]).
Proof.
  intros Hon Hoff Hrun tr repo commit i s Hs Hbad.
  pose proof (deploy_shape exec lib Hon Hoff _ _ _ _ _ _ Hrun) as HS.
  cbv zeta in HS. fold tr repo commit in HS.
  destruct (shape_fail_fast _ _ _ _ _ _ HS Hs Hbad) as [Hr Hlen].
  split; [done|]. intros Hctx.
  pose proof (shape_entry _ _ _ _ _ _ HS Hs) as Hi.
  pose proof (migrate_position _ _ _ _ _ _ _ _ _ _ Hi Hctx) as ->.
  split.
  - change (Some (under lib env "Migrating database" ++ venv env,
                  Run (migrate_command lib)) = Some (entry s)) in Hi.
    by injection Hi as _ <-.
  - destruct (shape_prefix _ _ _ _ HS) as [rest Hrest].
    apply (f_equal (take 11)) in Hrest.
    rewrite take_app_length' in Hrest by (by rewrite calls_length).
    by rewrite <- Hrest.
Qed.

(** C4.  Once the three queries have answered, with [repo] the name of
    the repository and [commit] the short hash of the reference, the next
    calls of [deploy] are, in this order, [rm -fr] of the directory
    /tmp/blob-<repo>-<commit>/, [mkdir] of the same directory, and the
    extraction into it of the [./src] subtree of the commit with one
    leading path component stripped; each is made as soon as the one
    before it has exited with status zero. *)
Theorem snapshot_directory w r st' repo commit s0 s1 s2 :
  boolean lib (PyStr "on") = true ->
  boolean lib (PyStr "off") = false ->
  run_task (deploy exec lib env git_ref upgrade) w = (r, st') ->
  let tr := trace st' in
  tr !! 0 = Some s0 -> s_out s0 = Some repo ->
  tr !! 1 = Some s1 -> s_out s1 = Some commit ->
  tr !! 2 = Some s2 -> s_ok s2 = true ->
  let tmp_dir := "/tmp/blob-" +:+ repo +:+ "-" +:+ commit +:+ "/" in
  s_call s0 = ULocal "basename `git rev-parse --show-toplevel`" true /\
  s_call s1 = ULocal ("git rev-parse --short " +:+ git_ref) true /\
  exists s3,
    tr !! 3 = Some s3 /\
    s_call s3 = ULocal ("rm -fr " +:+ tmp_dir) false /\
    (s_ok s3 = true ->
     exists s4,
       tr !! 4 = Some s4 /\
       s_call s4 = ULocal ("mkdir " +:+ tmp_dir) false /\
       (s_ok s4 = true ->
        exists s5,
          tr !! 5 = Some s5 /\
          s_call s5 =
            ULocal ("git archive " +:+ commit +:+ " ./src | tar -xC " +:+
                    tmp_dir +:+ " --strip 1") false)).
Proof.
  intros Hon Hoff Hrun tr H0 Hrepo H1 Hcommit H2 Hok2 tmp_dir.
  pose proof (deploy_shape exec lib Hon Hoff _ _ _ _ _ _ Hrun) as HS.
  cbv zeta in HS. fold tr in HS.
  assert (out_at 0 tr = repo) as Er by (unfold out_at; by rewrite H0; cbn; rewrite Hrepo).
  assert (out_at 1 tr = commit) as Ec by (unfold out_at; by rewrite H1; cbn; rewrite Hcommit).
  rewrite Er, Ec in HS.
  assert (forall i s, tr !! i = Some s -> s_ok s = true ->
          S i < 6 -> exists s', tr !! S i = Some s') as Hnext.
  { intros i s Hs Hok Hi. eapply (shape_next _ _ _ _ _ _ HS Hs Hok).
    - rewrite deploy_plan_length. lia.
    - intros k Hk. unfold stuck_table in Hk.
      do 5 (destruct i as [|i]; [not_in Hk|]). lia. }
  pose proof (shape_entry _ _ _ _ _ _ HS H0) as E0.
  pose proof (shape_entry _ _ _ _ _ _ HS H1) as E1.
  injection E0 as _ <-. injection E1 as _ <-.
  split; [done|]. split; [done|].
  destruct (Hnext 2 s2 H2 Hok2) as [s3 H3]; [lia|].
  exists s3. split; [done|].
  pose proof (shape_entry _ _ _ _ _ _ HS H3) as E3. injection E3 as _ <-.
  split; [done|]. intros Hok3.
  destruct (Hnext 3 s3 H3 Hok3) as [s4 H4]; [lia|].
  exists s4. split; [done|].
  pose proof (shape_entry _ _ _ _ _ _ HS H4) as E4. injection E4 as _ <-.
  split; [done|]. intros Hok4.
  destruct (Hnext 4 s4 H4 Hok4) as [s5 H5]; [lia|].
  exists s5. split; [done|].
  pose proof (shape_entry _ _ _ _ _ _ HS H5) as E5. by injection E5 as _ <-.
Qed.

End DeployClaims.

Section Scenario.
Context {W : Type}.
Variable exec : Ctx -> Call -> W -> Outcome W.
Variable lib : Lib.
Variable env : Env.

(** C9.  A successful [deploy("v1.2.0", upgrade=False)] on the single
    host [host1], when the reference resolves to commit [abc1234] on
    branch [main]: the snapshot is made in /tmp/blob-<repo>-abc1234/, the
    code is uploaded to the site directory, pip runs without the upgrade
    option, the migration runs, the worker group <user>-celeryd is
    restarted, the deployment is registered with [abc1234] and [main],
    the snapshot directory is removed and success is reported. *)
Theorem deploy_scenario w st' :
  boolean lib (PyStr "on") = true ->
  boolean lib (PyStr "off") = false ->
  hosts env = ["host1"] ->
  run_task (deploy exec lib env "v1.2.0" (PyBool false)) w = (Ok tt, st') ->
  let tr := trace st' in
  out_at 1 tr = "abc1234" ->
  out_at 2 tr = "main" ->
  let repo := out_at 0 tr in
  let tmp_dir := "/tmp/blob-" +:+ repo +:+ "-abc1234/" in
  let site := default "" (site_dir env) in
  let g := default "" (group env) in
  let u := default "" (user env) in
  s_call <$> tr =
    [ ULocal "basename `git rev-parse --show-toplevel`" true;
      ULocal "git rev-parse --short v1.2.0" true;
      ULocal "git rev-parse --abbrev-ref HEAD" true;
      ULocal ("rm -fr " +:+ tmp_dir) false;
      ULocal ("mkdir " +:+ tmp_dir) false;
      ULocal ("git archive abc1234 ./src | tar -xC " +:+ tmp_dir
              +:+ " --strip 1") false;
      URsync (maintenance_sync env);
      Run ("chgrp -R " +:+ g +:+ " .");
      URsync {| local_dir := tmp_dir; remote_dir := site; delete := true;
                default_opts := "-chrtvzP"; extra_opts := "--chmod=750";
                exclude := ["*.pyc"; "env/"; "cover/"; "*.style";
                            "bower_components"] |};
      Run ("pip install -r " +:+ requirements_path lib env);
      Run (migrate_command lib);
      Run "bower install";
      Run "python manage.py collectstatic --noinput";
      Run ("chgrp -R " +:+ g +:+ " .");
      Run ("chgrp -R " +:+ g +:+ " ../media");
      Run "touch ../reload";
      Run ("sudo /usr/bin/supervisorctl restart " +:+ u +:+ "-celeryd");
      Run ("opbeat -o $OPBEAT_ORGANIZATION_ID -a $OPBEAT_APP_ID " +:+
           "-t $OPBEAT_SECRET_TOKEN deployment --component path:. " +:+
           "vcs:git rev:abc1234 branch:main ");
      Run "rm -rf ./*";
      ULocal ("rm -fr " +:+ tmp_dir) false;
      Puts (green lib (SUCCESS_ART lib) false) false;
      Puts (white lib
              "Code from v1.2.0 was succesfully deployed to host host1"
              true) false ]
    /\ forallb s_ok tr = true.
Proof.
  intros Hon Hoff Hhosts Hrun tr Hcommit Hbranch repo tmp_dir site g u.
  pose proof (deploy_shape exec lib Hon Hoff _ _ _ _ _ _ Hrun) as HS.
  cbv zeta in HS. fold tr repo in HS. rewrite Hcommit, Hbranch in HS.
  apply shape_ok in HS as [HP Hall]. split; [|done].
  transitivity ((calls tr).*2).
  { unfold calls. by rewrite <- list_fmap_compose. }
  rewrite HP. unfold deploy_plan, report_calls. rewrite Hhosts.
  reflexivity.
Qed.

End Scenario.

Section UpgradeFlag.
Context {W : Type}.
Variable exec : Ctx -> Call -> W -> Outcome W.
Variable lib : Lib.
Variable env : Env.

Lemma install_requirements_calls upgrade w n site ds :
  env_name env = Some n -> site_dir env = Some site ->
  django_settings env = Some ds ->
  s_call <$> trace (run_task (install_requirements exec lib env upgrade) w).2
  = [Run (pip_command lib env upgrade)].
Proof.
  destruct env as [en hs u g sd dj md]. cbn. intros -> -> ->.
  destruct (run_task _ _) as [r st'] eqn:H.
  whd_run H.
  split_exec H exec; stop H; reflexivity.
Qed.

(** C10.  [install_requirements] tests its [upgrade] argument by Python
    truthiness and nothing else: pip is called with [-U] exactly when the
    value is truthy.  Every non-empty string is truthy, the string
    [False] that the command line produces included; the boolean [False]
    and the empty string are not.  The token parser [boolean] has no
    say: the statement holds for every [lib].  [deploy] hands its own
    [upgrade] argument over unchanged. *)
Theorem upgrade_flag_is_truthiness upgrade w n site ds :
  env_name env = Some n -> site_dir env = Some site ->
  django_settings env = Some ds ->
  let p := requirements_path lib env in
  s_call <$> trace (run_task (install_requirements exec lib env upgrade) w).2
  = [Run (if truthy upgrade then "pip install -Ur " +:+ p
          else "pip install -r " +:+ p)] /\
  (forall s, truthy (PyStr s) = true <-> s <> "") /\
  truthy (PyStr "False") = true /\
  truthy (PyBool false) = false /\
  (forall git_ref w' st',
     boolean lib (PyStr "on") = true ->
     boolean lib (PyStr "off") = false ->
     run_task (deploy exec lib env git_ref upgrade) w' = (Ok tt, st') ->
     (s_call <$> trace st') !! 9 =
       Some (Run (if truthy upgrade then "pip install -Ur " +:+ p
                  else "pip install -r " +:+ p))).
Proof.
  intros Hn Hs Hd p.
  assert (pip_command lib env upgrade =
          if truthy upgrade then "pip install -Ur " +:+ p
          else "pip install -r " +:+ p) as Hpip.
  { unfold pip_command. by destruct (truthy upgrade). }
  split; [|split; [|split; [|split]]].
  - rewrite <- Hpip. by eapply install_requirements_calls.
  - intros s. cbn. rewrite negb_true_iff. apply String.eqb_neq.
  - reflexivity.
  - reflexivity.
  - intros git_ref w' st' Hon Hoff Hrun.
    pose proof (deploy_shape exec lib Hon Hoff _ _ _ _ _ _ Hrun) as HS.
    apply shape_ok in HS as [HP _].
    apply (f_equal (fun l => l.*2 !! 9)) in HP.
    unfold calls in HP. rewrite <- list_fmap_compose in HP.
    rewrite <- Hpip. exact HP.
Qed.

End UpgradeFlag.

(** ** Facts about the model of the remote directories *)
Module FsFacts.
Import Fs.

Lemma length_append (s1 s2 : string) :
  String.length (s1 +:+ s2) = String.length s1 + String.length s2.
Proof.
  induction s1 as [|c s1 IH]; [reflexivity|].
  change (S (String.length (s1 +:+ s2)) =
          S (String.length s1 + String.length s2)).
  by rewrite IH.
Qed.

Lemma strip_suffix_eq (suf s : string) :
  strip_suffix suf s =
    if String.eqb s suf then Some EmptyString
    else match s with
         | EmptyString => None
         | String c s' => String c <$> strip_suffix suf s'
         end.
Proof. by destruct s. Qed.

Lemma strip_suffix_app (suf g : string) :
  strip_suffix suf (g +:+ suf) = Some g.
Proof.
  induction g as [|c g IH]; rewrite strip_suffix_eq.
  - change (EmptyString +:+ suf) with suf. by rewrite String.eqb_refl.
  - change (String c g +:+ suf) with (String c (g +:+ suf)).
    destruct (String.eqb_spec (String c (g +:+ suf)) suf) as [Heq|_].
    + apply (f_equal String.length) in Heq.
      change (S (String.length (g +:+ suf)) = String.length suf) in Heq.
      rewrite length_append in Heq. lia.
    + by rewrite IH.
Qed.

Lemma chgrp_target_spec (g : string) :
  chgrp_target ("chgrp -R " +:+ g +:+ " .") = Some g.
Proof.
  unfold chgrp_target.
  change (strip_prefix "chgrp -R " ("chgrp -R " +:+ g +:+ " ."))
    with (Some (g +:+ " .")).
  exact (strip_suffix_app " ." g).
Qed.

Lemma shell_effect_chgrp g t :
  shell_effect ("chgrp -R " +:+ g +:+ " .") t = chgrp_R g t.
Proof.
  unfold shell_effect. rewrite chgrp_target_spec. reflexivity.
Qed.

Lemma shell_effect_rm t : shell_effect "rm -rf ./*" t = rm_rf_star t.
Proof. reflexivity. Qed.

Lemma lookup_rm_rf_star t p :
  rm_rf_star t !! p = if hidden p then t !! p else None.
Proof.
  unfold rm_rf_star. apply option_eq. intros f.
  rewrite map_lookup_filter_Some. cbn.
  destruct (hidden p); split; try done; by intros [? ?].
Qed.

(** Nothing is left of a tree without hidden entries. *)
Lemma rm_rf_star_visible t :
  (forall p, is_Some (t !! p) -> hidden p = false) -> rm_rf_star t = ∅.
Proof.
  intros Hvis. apply map_eq. intros p.
  rewrite lookup_rm_rf_star, lookup_empty.
  destruct (hidden p) eqn:Hp; [|done].
  destruct (t !! p) eqn:Ht; [|done].
  rewrite Hvis in Hp by (by rewrite Ht). discriminate.
Qed.

Lemma rm_rf_star_empty : rm_rf_star ∅ = ∅.
Proof. apply rm_rf_star_visible. intros p [? H]. by rewrite lookup_empty in H. Qed.

Section TransferFacts.
Variable matches : string -> string -> bool.
Variable login_group : string.

Lemma lookup_rsync_tree a l r p :
  rsync_tree matches login_group a l r !! p =
    if excluded matches (exclude a) p then r !! p
    else match l !! p with
         | Some c =>
             Some {| content := c;
                     owner_group :=
                       match r !! p with
                       | Some f => owner_group f
                       | None => login_group
                       end |}
         | None => if delete a then None else r !! p
         end.
Proof.
  unfold rsync_tree. rewrite lookup_union, !map_lookup_imap.
  destruct (excluded matches (exclude a) p), (l !! p), (r !! p),
    (delete a); reflexivity.
Qed.

(** With [delete], what is in the remote tree after a synchronisation
    is in the local tree or covered by an exclude pattern. *)
Lemma rsync_tree_subset a l r p :
  delete a = true ->
  is_Some (rsync_tree matches login_group a l r !! p) ->
  is_Some (l !! p) \/ excluded matches (exclude a) p = true.
Proof.
  intros Hd. rewrite lookup_rsync_tree, Hd.
  destruct (excluded matches (exclude a) p); [by right|].
  destruct (l !! p); [by left|]. by intros [? ?].
Qed.

(** With [delete] and no exclude pattern the remote tree becomes a copy
    of the local one; [chgrp -R] then settles the group. *)
Lemma chgrp_rsync_mirror g a l r :
  delete a = true -> exclude a = [] ->
  chgrp_R g (rsync_tree matches login_group a l r) =
  (fun c => {| content := c; owner_group := g |}) <$> l.
Proof.
  intros Hd He. apply map_eq. intros p. unfold chgrp_R.
  rewrite !lookup_fmap, lookup_rsync_tree, Hd, He. cbn.
  by destruct (l !! p).
Qed.

Lemma set_remote_twice w d t t' :
  set_remote (set_remote w d t) d t' = set_remote w d t'.
Proof. unfold set_remote. cbn. by rewrite insert_insert_eq. Qed.

Lemma set_remote_same w d t :
  remote_fs w !! d = Some t -> set_remote w d t = w.
Proof.
  intros H. destruct w as [l r]. unfold set_remote. cbn in *.
  by rewrite insert_id.
Qed.

Lemma remote_set_remote w d t : remote_fs (set_remote w d t) !! d = Some t.
Proof. unfold set_remote. cbn. by rewrite lookup_insert_eq. Qed.

End TransferFacts.

End FsFacts.

(** ** [maintenance] on the model *)
Ltac fs_red :=
  cbv beta iota zeta delta
    [run_task maintenance require attr cd in_ctx ursync_project run call
     bind ret abort log start top_ctx world trace app List.filter negb
     provided is_set maintenance_dir group Fs.exec_fs Fs.remote_cwd cwd omap
     list_omap fold_left Fs.enter local_dir remote_dir].

Section MaintenanceOnModel.
Variable matches : string -> string -> bool.
Variable login_group : string.
Variable lib : Lib.
Variable env : Env.
Variables (d g : string).
Hypothesis Hdir : maintenance_dir env = Some d.

Let exec := Fs.exec_fs matches login_group.

Lemma maintenance_on_fs state st l :
  boolean lib state = true -> group env = Some g ->
  Fs.local_fs (world st) !! "./maintenance/" = Some l ->
  exists tr,
    maintenance exec lib env state top_ctx st =
      (Ok tt, {| world := Fs.set_remote (world st) d (Fs.populated g l);
                 trace := tr |}).
Proof using Hdir.
  intros Hon Hg Hl. destruct env as [en hs u g' sd ds md].
  destruct st as [w tr0]. cbn [world] in Hl.
  cbn in Hdir, Hg. subst md g'. unfold exec. fs_red.
  rewrite Hon, Hl. fs_red.
  rewrite FsFacts.remote_set_remote. fs_red.
  rewrite FsFacts.shell_effect_chgrp, FsFacts.set_remote_twice.
  rewrite FsFacts.chgrp_rsync_mirror by done.
  eexists. reflexivity.
Qed.

Lemma maintenance_off_fs state st t :
  boolean lib state = false ->
  Fs.remote_fs (world st) !! d = Some t ->
  maintenance exec lib env state top_ctx st =
    (Ok tt,
     {| world := Fs.set_remote (world st) d (Fs.rm_rf_star t);
        trace := trace st ++
                 [{| s_ctx := [InDir d]; s_call := Run "rm -rf ./*";
                     s_out := Some "" |}] |}).
Proof using Hdir.
  intros Hoff Ht. destruct env as [en hs u g' sd ds md].
  destruct st as [w tr0]. cbn [world] in Ht.
  cbn in Hdir. subst md. unfold exec. fs_red.
  rewrite Hoff, Ht. reflexivity.
Qed.

(** C6.  The maintenance toggle is idempotent.  Whatever the remote
    maintenance directory holds, [maintenance('on')] leaves in it a copy
    of the local maintenance page owned by the configured group, and a
    second [maintenance('on')] leaves the same; [maintenance('off')] on
    an empty directory succeeds and changes nothing. *)
Theorem maintenance_idempotent fw l :
  boolean lib (PyStr "on") = true ->
  boolean lib (PyStr "off") = false ->
  group env = Some g ->
  Fs.local_fs fw !! "./maintenance/" = Some l ->
  let on := maintenance exec lib env (PyStr "on") in
  let off := maintenance exec lib env (PyStr "off") in
  (exists st1 st2,
     run_task on fw = (Ok tt, st1) /\
     run_task (on ;; on) fw = (Ok tt, st2) /\
     Fs.remote_fs (world st1) !! d = Some (Fs.populated g l) /\
     world st2 = world st1) /\
  (Fs.remote_fs fw !! d = Some ∅ ->
   exists st, run_task off fw = (Ok tt, st) /\ world st = fw).
Proof using Hdir.
  intros Hon Hoff Hg Hl on off. split.
  - destruct (maintenance_on_fs (PyStr "on") {| world := fw; trace := [] |}
                l Hon Hg Hl) as [tr1 H1].
    cbn [world] in H1.
    destruct (maintenance_on_fs (PyStr "on")
                {| world := Fs.set_remote fw d (Fs.populated g l); trace := tr1 |}
                l Hon Hg Hl) as [tr2 H2].
    cbn [world] in H2.
    eexists _, _. unfold run_task, start, on, bind. rewrite H1, H2.
    split; [done|]. split; [done|]. cbn.
    split; [apply FsFacts.remote_set_remote|apply FsFacts.set_remote_twice].
  - intros Hempty. eexists. unfold run_task, start, off.
    rewrite (maintenance_off_fs (PyStr "off") {| world := fw; trace := [] |}
               ∅ Hoff Hempty).
    split; [done|]. cbn. rewrite FsFacts.rm_rf_star_empty.
    by apply FsFacts.set_remote_same.
Qed.

(** C7, as amended.  With a falsy state token [maintenance] makes one
    call, [rm -rf ./*] in the maintenance directory, whatever the
    directory holds and also when it is empty, and the call succeeds.
    It removes every entry of the directory whose name does not start
    with a dot, with all that is below it; the hidden entries stay.  The
    directory is left empty when it had no hidden entry. *)
Theorem maintenance_off_effect state fw t :
  boolean lib state = false ->
  Fs.remote_fs fw !! d = Some t ->
  exists st t',
    run_task (maintenance exec lib env state) fw = (Ok tt, st) /\
    s_call <$> trace st = [Run "rm -rf ./*"] /\
    Fs.remote_fs (world st) !! d = Some t' /\
    (forall p, t' !! p = if Fs.hidden p then t !! p else None) /\
    ((forall p, is_Some (t !! p) -> Fs.hidden p = false) -> t' = ∅).
Proof using Hdir.
  intros Hoff Ht. eexists _, (Fs.rm_rf_star t). unfold run_task, start.
  rewrite (maintenance_off_fs state {| world := fw; trace := [] |} t
             Hoff Ht).
  split; [done|]. split; [done|]. cbn.
  split; [apply FsFacts.remote_set_remote|].
  split; [apply FsFacts.lookup_rm_rf_star|apply FsFacts.rm_rf_star_visible].
Qed.

End MaintenanceOnModel.
(** ** The code transfer on the model *)
Section CodeTransfer.
Context {W : Type}.
Variable exec : Ctx -> Call -> W -> Outcome W.
Variable lib : Lib.
Variable env : Env.
Variables (git_ref : string) (upgrade : PyVal).
Variable matches : string -> string -> bool.
Variable login_group : string.

(** C5.  The code transfer is call 8 of [deploy]: a synchronisation of
    the snapshot directory to the site directory with [delete] set and
    the exclude patterns [*.pyc], [env/], [cover/], [*.style] and
    [bower_components].  Once it has completed, every file of the remote
    site directory is a file of the local snapshot or is covered by one
    of the exclude patterns. *)
Theorem upload_leaves_no_extraneous_file w r st' s :
  boolean lib (PyStr "on") = true ->
  boolean lib (PyStr "off") = false ->
  run_task (deploy exec lib env git_ref upgrade) w = (r, st') ->
  let tr := trace st' in
  tr !! 8 = Some s ->
  let a := upload_sync env (out_at 0 tr) (out_at 1 tr) in
  s_call s = URsync a /\
  local_dir a = tmp_dir_of (out_at 0 tr) (out_at 1 tr) /\
  remote_dir a = default "" (site_dir env) /\
  delete a = true /\
  exclude a = ["*.pyc"; "env/"; "cover/"; "*.style"; "bower_components"] /\
  forall fw out fw',
    Fs.exec_fs matches login_group (s_ctx s) (s_call s) fw = Exit0 out fw' ->
    exists l t',
      Fs.local_fs fw !! local_dir a = Some l /\
      Fs.remote_fs fw' !! remote_dir a = Some t' /\
      forall p, is_Some (t' !! p) ->
                is_Some (l !! p) \/
                Fs.excluded matches (exclude a) p = true.
Proof.
  intros Hon Hoff Hrun tr Hs a.
  pose proof (deploy_shape exec lib Hon Hoff _ _ _ _ _ _ Hrun) as HS.
  cbv zeta in HS. fold tr in HS.
  pose proof (shape_entry _ _ _ _ _ _ HS Hs) as E. injection E as _ <-.
  do 5 (split; [reflexivity|]).
  intros fw out fw' Hexec. fold a in Hexec. unfold Fs.exec_fs in Hexec.
  destruct (Fs.local_fs fw !! local_dir a) as [l|] eqn:Hl; [|discriminate].
  injection Hexec as _ <-. eexists l, _.
  split; [done|]. split; [apply FsFacts.remote_set_remote|].
  intros p. by apply FsFacts.rsync_tree_subset.
Qed.

End CodeTransfer.

(** ** The claims on closed inputs *)

Lemma ok_run_eq :
  run_task (deploy Sample.exec_ok Sample.lib Sample.env "v1.2.0"
              (PyBool false)) tt = (Ok tt, Closed.ok_state).
Proof. by_computation. Qed.

Lemma failing_run_eq :
  run_task (deploy Sample.exec_migrate_fails Sample.lib Sample.env "v1.2.0"
              (PyBool false)) tt
  = (Closed.failing_result, Closed.failing_state).
Proof. by_computation. Qed.

(** C1, as the overview states it, fails: in the log of a successful
    deployment the phases are not in the order snapshot, upload,
    maintenance mode on, provisioning, maintenance mode off, cleanup. *)
Lemma deploy_overview_order_fails :
  let tr := trace Closed.ok_state in
  run_task (deploy Sample.exec_ok Sample.lib Sample.env "v1.2.0"
              (PyBool false)) tt = (Ok tt, Closed.ok_state) /\
  calls tr <>
    overview_plan Sample.lib Sample.env "v1.2.0" (PyBool false)
      (out_at 0 tr) (out_at 1 tr) (out_at 2 tr).
Proof.
  split; [exact ok_run_eq|]. intros H.
  apply (f_equal (fun l => l.*2 !! 6)) in H. vm_compute in H. discriminate.
Qed.

Lemma deploy_phase_order_witness :
  let tr := trace Closed.ok_state in
  calls tr =
    snapshot_calls Sample.lib "v1.2.0" "luke" "abc1234" ++
    maintenance_on_calls Sample.lib Sample.env ++
    upload_calls Sample.lib Sample.env "luke" "abc1234" ++
    provision_calls Sample.lib Sample.env (PyBool false) "abc1234" "main" ++
    maintenance_off_calls Sample.lib Sample.env ++
    cleanup_calls Sample.lib "luke" "abc1234" ++
    report_calls Sample.lib Sample.env "v1.2.0".
Proof.
  exact (deploy_phase_order Sample.exec_ok Sample.lib Sample.env "v1.2.0"
           (PyBool false) tt Closed.ok_state eq_refl eq_refl ok_run_eq).
Defined.

Lemma provision_step_order_witness :
  exists rest : list Call,
    [ ULocal "basename `git rev-parse --show-toplevel`" true;
      ULocal "git rev-parse --short v1.2.0" true;
      ULocal "git rev-parse --abbrev-ref HEAD" true;
      ULocal "rm -fr /tmp/blob-luke-abc1234/" false;
      ULocal "mkdir /tmp/blob-luke-abc1234/" false;
      ULocal ("git archive abc1234 ./src | tar -xC " +:+
              "/tmp/blob-luke-abc1234/ --strip 1") false;
      URsync (maintenance_sync Sample.env);
      Run "chgrp -R www-data .";
      URsync (upload_sync Sample.env "luke" "abc1234");
      Run "pip install -r /srv/luke/site/requirements/production.txt";
      Run "python manage.py migrate --noinput";
      Run "bower install";
      Run "python manage.py collectstatic --noinput";
      Run "chgrp -R www-data .";
      Run "chgrp -R www-data ../media";
      Run "touch ../reload";
      Run "sudo /usr/bin/supervisorctl restart luke-celeryd";
      Run (register_command "abc1234" "main");
      Run "rm -rf ./*";
      ULocal "rm -fr /tmp/blob-luke-abc1234/" false;
      Puts (green Sample.lib "DEPLOYED" false) false;
      Puts (white Sample.lib
              "Code from v1.2.0 was succesfully deployed to host host1" true)
        false ]
    = (s_call <$> trace Closed.failing_state) ++ rest /\
    length rest = 11.
Proof.
  destruct (provision_step_order Sample.exec_migrate_fails Sample.lib
              Sample.env "v1.2.0" (PyBool false) tt Closed.failing_result
              Closed.failing_state eq_refl eq_refl failing_run_eq)
    as [rest [Hrest _]].
  exists rest. split; [exact Hrest|].
  apply (f_equal length) in Hrest. rewrite length_app in Hrest.
  cbn in Hrest. lia.
Defined.

Lemma command_failure_is_fatal_witness :
  let tr := trace Closed.failing_state in
  let s := Closed.nth_step 10 tr in
  s_call s = Run "python manage.py migrate --noinput" /\
  s_ok s = false /\
  Closed.failing_result = Aborted (NonZeroExit (s_ctx s) (s_call s)) /\
  length tr = 11 /\
  (Run "python manage.py collectstatic --noinput" ∉ s_call <$> tr) /\
  (Run "rm -rf ./*" ∉ s_call <$> tr).
Proof.
  pose proof (command_failure_is_fatal Sample.exec_migrate_fails Sample.lib
                Sample.env "v1.2.0" (PyBool false) tt Closed.failing_result
                Closed.failing_state eq_refl eq_refl failing_run_eq 10
                (Closed.nth_step 10 (trace Closed.failing_state))
                eq_refl eq_refl) as [[Hr Hlen] Hmig].
  split; [reflexivity|]. split; [reflexivity|].
  split; [exact Hr|]. split; [exact Hlen|].
  split; apply (bool_decide_unpack _); by_computation.
Defined.

Lemma snapshot_directory_witness :
  let tr := trace Closed.ok_state in
  s_call <$> tr !! 3 = Some (ULocal "rm -fr /tmp/blob-luke-abc1234/" false) /\
  s_call <$> tr !! 4 = Some (ULocal "mkdir /tmp/blob-luke-abc1234/" false) /\
  s_call <$> tr !! 5 =
    Some (ULocal ("git archive abc1234 ./src | tar -xC " +:+
                  "/tmp/blob-luke-abc1234/ --strip 1") false).
Proof.
  destruct (snapshot_directory Sample.exec_ok Sample.lib Sample.env "v1.2.0"
              (PyBool false) tt (Ok tt) Closed.ok_state "luke" "abc1234"
              (Closed.nth_step 0 (trace Closed.ok_state))
              (Closed.nth_step 1 (trace Closed.ok_state))
              (Closed.nth_step 2 (trace Closed.ok_state))
              eq_refl eq_refl ok_run_eq
              eq_refl eq_refl eq_refl eq_refl eq_refl eq_refl)
    as (_ & _ & s3 & H3 & C3 & Hn3).
  cbv zeta. rewrite H3. cbn [fmap option_fmap option_map]. rewrite C3.
  split; [reflexivity|].
  assert (s3 = Closed.nth_step 3 (trace Closed.ok_state)) as ->
    by (apply (inj Some); by rewrite <- H3).
  destruct (Hn3 eq_refl) as (s4 & H4 & C4 & Hn4).
  rewrite H4. cbn [fmap option_fmap option_map]. rewrite C4.
  split; [reflexivity|].
  assert (s4 = Closed.nth_step 4 (trace Closed.ok_state)) as ->
    by (apply (inj Some); by rewrite <- H4).
  destruct (Hn4 eq_refl) as (s5 & H5 & C5).
  rewrite H5. cbn [fmap option_fmap option_map]. by rewrite C5.
Defined.

(** C8 fails on the code: [deploy] calls [bower install] although the
    bower flag of [project_conf] is off; [bootstrap], which tests the flag,
    does not. *)
Theorem deploy_ignores_bower_flag :
  bower (tools project_conf) = false /\
  run_task (deploy Sample.exec_ok Sample.lib Sample.env "v1.2.0"
              (PyBool false)) tt = (Ok tt, Closed.ok_state) /\
  (Run "bower install" ∈ s_call <$> trace Closed.ok_state) /\
  (let b := run_task (bootstrap Sample.exec_ok Sample.lib Sample.env) tt in
   b.1 = Ok tt /\ (Run "bower install" ∉ s_call <$> trace b.2)).
Proof.
  split; [reflexivity|]. split; [exact ok_run_eq|].
  split; [apply (bool_decide_unpack _); by_computation|].
  split; [by_computation|apply (bool_decide_unpack _); by_computation].
Qed.

Lemma deploy_scenario_witness :
  let tr := trace Closed.ok_state in
  (s_call <$> tr) !! 3 = Some (ULocal "rm -fr /tmp/blob-luke-abc1234/" false) /\
  (s_call <$> tr) !! 9 =
    Some (Run "pip install -r /srv/luke/site/requirements/production.txt") /\
  (s_call <$> tr) !! 16 =
    Some (Run "sudo /usr/bin/supervisorctl restart luke-celeryd") /\
  (s_call <$> tr) !! 17 =
    Some (Run ("opbeat -o $OPBEAT_ORGANIZATION_ID -a $OPBEAT_APP_ID " +:+
               "-t $OPBEAT_SECRET_TOKEN deployment --component path:. " +:+
               "vcs:git rev:abc1234 branch:main ")) /\
  length tr = 22 /\ forallb s_ok tr = true.
Proof.
  destruct (deploy_scenario Sample.exec_ok Sample.lib Sample.env tt
              Closed.ok_state eq_refl eq_refl eq_refl ok_run_eq
              eq_refl eq_refl) as [Hcalls Hall].
  cbv zeta in Hcalls |- *. rewrite Hcalls.
  split; [reflexivity|]. split; [reflexivity|]. split; [reflexivity|].
  split; [reflexivity|]. split; [|exact Hall].
  apply (f_equal length) in Hcalls. by rewrite length_fmap in Hcalls.
Defined.

Lemma upgrade_flag_is_truthiness_witness :
  s_call <$>
    trace (run_task (install_requirements Sample.exec_ok Sample.lib Sample.env
                       (PyStr "False")) tt).2
  = [Run "pip install -Ur /srv/luke/site/requirements/production.txt"] /\
  boolean Sample.lib (PyStr "False") = false.
Proof.
  split; [|reflexivity].
  exact (proj1 (upgrade_flag_is_truthiness Sample.exec_ok Sample.lib
                  Sample.env (PyStr "False") tt "production"
                  "/srv/luke/site" "luke.settings.production"
                  eq_refl eq_refl eq_refl)).
Defined.

Lemma upload_leaves_no_extraneous_file_witness :
  let s := Closed.nth_step 8 (trace Closed.ok_state) in
  s_call s = URsync (upload_sync Sample.env "luke" "abc1234") /\
  forall fw out fw',
    Fs.exec_fs Closed.no_pattern "luke" (s_ctx s) (s_call s) fw = Exit0 out fw' ->
    exists l t',
      Fs.local_fs fw !! "/tmp/blob-luke-abc1234/" = Some l /\
      Fs.remote_fs fw' !! "/srv/luke/site" = Some t' /\
      forall p, is_Some (t' !! p) -> is_Some (l !! p).
Proof.
  destruct (upload_leaves_no_extraneous_file Sample.exec_ok Sample.lib
              Sample.env "v1.2.0" (PyBool false) Closed.no_pattern "luke"
              tt (Ok tt) Closed.ok_state
              (Closed.nth_step 8 (trace Closed.ok_state))
              eq_refl eq_refl ok_run_eq eq_refl)
    as (Hcall & _ & _ & _ & _ & Hfs).
  split; [exact Hcall|]. intros fw out fw' Hexec.
  destruct (Hfs fw out fw' Hexec) as (l & t' & Hl & Ht & Hsub).
  exists l, t'. split; [exact Hl|]. split; [exact Ht|].
  intros p Hp. by destruct (Hsub p Hp).
Defined.

Lemma maintenance_idempotent_witness :
  let on :=
    maintenance (Fs.exec_fs Closed.no_pattern "luke") Sample.lib Sample.env
      (PyStr "on") in
  let fw := Closed.hidden_world in
  exists st1 st2,
    run_task on fw = (Ok tt, st1) /\
    run_task (on ;; on) fw = (Ok tt, st2) /\
    Fs.remote_fs (world st1) !! "/srv/luke/maintenance" =
      Some (Fs.populated "www-data" Closed.page) /\
    world st2 = world st1.
Proof.
  exact (proj1 (maintenance_idempotent Closed.no_pattern "luke" Sample.lib
                  Sample.env "/srv/luke/maintenance" "www-data" eq_refl
                  Closed.hidden_world Closed.page
                  eq_refl eq_refl eq_refl eq_refl)).
Defined.

(** C7, as stated, fails: after [maintenance('off')] a hidden file of the
    maintenance directory is still there, so the directory is not empty. *)
Lemma maintenance_off_keeps_hidden_files :
  let off :=
    maintenance (Fs.exec_fs Closed.no_pattern "luke") Sample.lib Sample.env
      (PyStr "off") in
  let after := run_task off Closed.hidden_world in
  after.1 = Ok tt /\
  Fs.remote_fs (world after.2) !! "/srv/luke/maintenance" <> Some ∅ /\
  Fs.remote_fs (world after.2) !! "/srv/luke/maintenance" ≫= (.!! ".htaccess")
  = Some {| Fs.content := "Require all denied"; Fs.owner_group := "www-data" |}.
Proof.
  assert (Fs.remote_fs
            (world (run_task
                      (maintenance (Fs.exec_fs Closed.no_pattern "luke")
                         Sample.lib Sample.env (PyStr "off"))
                      Closed.hidden_world).2)
          !! "/srv/luke/maintenance" ≫= (.!! ".htaccess")
          = Some {| Fs.content := "Require all denied";
                    Fs.owner_group := "www-data" |}) as Hkept
    by by_computation.
  split; [by_computation|]. split; [|exact Hkept].
  intros Hempty. cbv zeta in Hempty. rewrite Hempty in Hkept.
  clear Hempty. cbn in Hkept. rewrite lookup_empty in Hkept.
  discriminate Hkept.
Qed.

Lemma maintenance_off_effect_witness :
  exists st t',
    run_task (maintenance (Fs.exec_fs Closed.no_pattern "luke") Sample.lib
                Sample.env (PyStr "off")) Closed.empty_world = (Ok tt, st) /\
    s_call <$> trace st = [Run "rm -rf ./*"] /\
    Fs.remote_fs (world st) !! "/srv/luke/maintenance" = Some t' /\
    t' = ∅.
Proof.
  destruct (maintenance_off_effect Closed.no_pattern "luke" Sample.lib
              Sample.env "/srv/luke/maintenance" eq_refl (PyStr "off")
              Closed.empty_world ∅ eq_refl eq_refl)
    as (st & t' & Hrun & Hcalls & Ht & _ & Hempty).
  exists st, t'. repeat split; try done.
  apply Hempty. intros p [f Hf]. by rewrite lookup_empty in Hf.
Defined.

(** * Further properties of the tasks *)

Ltac solve_fail_fast :=
  let i := fresh "i" in
  let s := fresh "s" in
  let Hs := fresh "Hs" in
  let Hbad := fresh "Hbad" in
  intros i s Hs Hbad;
  repeat (destruct i as [|i];
          [injection Hs as <-; first [discriminate Hbad | by split]|]);
  discriminate Hs.

Ltac solve_along :=
  split; [eexists; split; [reflexivity|done]|solve_fail_fast].

(** ** Tasks that are short sequences of commands *)
Section Sequences.
Context {W : Type}.
Variable exec : Ctx -> Call -> W -> Outcome W.
Variable lib : Lib.
Variable env : Env.

(** X1.  [resetdb] drops the database, creates it and migrates, in this
    order, and each step is made only when the one before it has exited
    with status zero: when [dropdb] fails (no database yet, say),
    [createdb] is not called. *)
Theorem resetdb_order w :
  let out := run_task (resetdb exec lib env) w in
  runs_along
    [ URun "dropdb luke";
      URun "createdb luke -l en_US.UTF-8 -E UTF8 -T template0";
      Run (join lib ["python manage.py migrate"; options lib [];
                     arguments lib []]) ]
    out.1 (trace out.2).
Proof.
  cbv zeta. destruct (run_task _ _) as [r st'] eqn:H.
  destruct env as [en hs u g sd ds md].
  whd_run H. split_exec H exec; [|stop H; solve_along].
  split_exec H exec; [|stop H; solve_along].
  destruct sd as [sd|]; whd_run H; [|stop H; solve_along].
  destruct ds as [ds|]; whd_run H; [|stop H; solve_along].
  split_exec H exec; stop H; solve_along.
Qed.

(** X2.  [bootstrap] creates the database, migrates and collects the
    static files, in this order and stopping at the first failure; with
    the bower flag of [project_conf] off it never calls [bower install]. *)
Theorem bootstrap_order w :
  let out := run_task (bootstrap exec lib env) w in
  runs_along
    [ URun "createdb luke -l en_US.UTF-8 -E UTF8 -T template0";
      Run (join lib ["python manage.py migrate"; options lib [];
                     arguments lib []]);
      Run "python manage.py collectstatic --noinput" ]
    out.1 (trace out.2).
Proof.
  cbv zeta. destruct (run_task _ _) as [r st'] eqn:H.
  destruct env as [en hs u g sd ds md].
  whd_run H. split_exec H exec; [|stop H; solve_along].
  destruct sd as [sd|]; whd_run H; [|stop H; solve_along].
  destruct ds as [ds|]; whd_run H; [|stop H; solve_along].
  split_exec H exec; [|stop H; solve_along].
  split_exec H exec; stop H; solve_along.
Qed.

(** X3.  [bootstrap] does not look at the environment before it creates
    the database: when the site directory or the settings module is not
    set, [createdb] is still called, and the task aborts after it. *)
Theorem bootstrap_unconfigured w :
  provided env Ksite_dir && provided env Kdjango_settings = false ->
  let out := run_task (bootstrap exec lib env) w in
  s_call <$> trace out.2 =
    [URun "createdb luke -l en_US.UTF-8 -E UTF8 -T template0"] /\
  out.1 <> Ok tt.
Proof.
  intros Hunset. cbv zeta. destruct (run_task _ _) as [r st'] eqn:H.
  destruct env as [en hs u g sd ds md].
  whd_run H. split_exec H exec; [|by stop H].
  destruct sd as [sd|]; whd_run H; [|by stop H].
  destruct ds as [ds|]; whd_run H; [|by stop H].
  discriminate Hunset.
Qed.

(** X4.  [runtests] writes the coverage report only when the test run has
    exited with status zero. *)
Theorem runtests_order app w :
  let out := run_task (runtests exec env app) w in
  runs_along
    [ Run ("coverage run --source='.' manage.py test " +:+ app);
      Run "coverage html --omit=luke/settings/*,luke/wsgi.py" ]
    out.1 (trace out.2).
Proof.
  cbv zeta. destruct (run_task _ _) as [r st'] eqn:H.
  destruct env as [en hs u g sd ds md]. whd_run H.
  destruct sd as [sd|]; whd_run H; [|stop H; solve_along].
  destruct ds as [ds|]; whd_run H; [|stop H; solve_along].
  split_exec H exec; [|stop H; solve_along].
  split_exec H exec; stop H; solve_along.
Qed.

(** X5.  [runserver] compiles the stylesheet first (the stylus flag of
    [project_conf] is on), without the watch option, and starts the
    development server only when the compilation has succeeded. *)
Theorem runserver_order w :
  let out := run_task (runserver exec env) w in
  runs_along
    [ Run "stylus -c  assets/css/custom.styl";
      Run "python manage.py runserver_plus 0.0.0.0:8000" ]
    out.1 (trace out.2).
Proof.
  cbv zeta. destruct (run_task _ _) as [r st'] eqn:H.
  destruct env as [en hs u g sd ds md]. whd_run H.
  destruct sd as [sd|]; whd_run H; [|stop H; solve_along].
  destruct ds as [ds|]; whd_run H; [|stop H; solve_along].
  split_exec H exec; [|stop H; solve_along].
  split_exec H exec; stop H; solve_along.
Qed.

End Sequences.

(** ** Tasks run in the activated environment *)
Section Activated.
Context {W : Type}.
Variable exec : Ctx -> Call -> W -> Outcome W.
Variable lib : Lib.
Variable env : Env.

Lemma virtualenv_unset {A} (body : M W A) ctx st :
  provided env Ksite_dir && provided env Kdjango_settings = false ->
  virtualenv env body ctx st =
    (Aborted (MissingKeys (missing_of_venv env)), st).
Proof.
  unfold virtualenv, missing_of_venv, bind, require.
  destruct env as [en hs u g [sd|] [ds|] md]; cbn; intros Hunset;
    first [discriminate Hunset | reflexivity].
Qed.

(** X6.  No management command runs on an environment that has not been
    selected: when the site directory or the settings module is not set,
    each of these tasks aborts on the missing keys without making a single
    call. *)
Theorem no_command_without_environment w :
  provided env Ksite_dir && provided env Kdjango_settings = false ->
  let stopped := (Aborted (MissingKeys (missing_of_venv env)), start w) in
  run_task (createsuperuser exec env) w = stopped /\
  (forall app, run_task (runtests exec env app) w = stopped) /\
  (forall args, run_task (loaddata exec lib env args) w = stopped) /\
  (forall args kw,
     run_task (makemigrations exec lib env args kw) w = stopped) /\
  (forall args kw, run_task (migrate exec lib env args kw) w = stopped) /\
  run_task (collectstatic exec env) w = stopped /\
  run_task (bower_install exec env) w = stopped /\
  (forall p, run_task (bower_install_package exec env p) w = stopped) /\
  (forall watch, run_task (styluscompile exec env watch) w = stopped) /\
  run_task (runserver exec env) w = stopped /\
  (forall c b, run_task (register_deployment exec env c b) w = stopped) /\
  (forall n, n <> "" -> run_task (startapp exec env n) w = stopped).
Proof.
  intros Hunset. cbv zeta. unfold run_task.
  repeat split; intros; try (by apply virtualenv_unset).
  - unfold runserver, checkstylus, bind. cbn [stylus tools project_conf].
    unfold styluscompile. by rewrite virtualenv_unset.
  - unfold startapp. cbn [truthy].
    destruct (String.eqb_spec n ""); [done|]. by apply virtualenv_unset.
Qed.

(** X7.  [startapp] with an empty name does nothing and succeeds, whatever
    the environment; with a name it makes one call, in the activated
    environment. *)
Theorem startapp_calls app_name w site ds :
  site_dir env = Some site -> django_settings env = Some ds ->
  let out := run_task (startapp exec env app_name) w in
  calls (trace out.2) =
    if String.eqb app_name "" then []
    else [ ([InDir site; InEnv [("DJANGO_SETTINGS_MODULE", ds)]],
            Run ("python manage.py startapp " +:+ app_name)) ].
Proof.
  destruct env as [en hs u g sd dj md]. cbn. intros -> ->.
  destruct (run_task _ _) as [r st'] eqn:H.
  unfold run_task, startapp in H. cbn [truthy] in H.
  destruct (String.eqb app_name ""); cbn [negb] in H.
  - by stop H.
  - whd_run H. split_exec H exec; by stop H.
Qed.


End Activated.

(** ** [deploy] and [maintenance] on incomplete environments *)
Section IncompleteEnv.
Context {W : Type}.
Variable exec : Ctx -> Call -> W -> Outcome W.
Variable lib : Lib.
Variable env : Env.
Variables (git_ref : string) (upgrade : PyVal).

(** X9.  [deploy] checks five keys before anything else: when one of
    hosts, user, group, site directory and settings module is unset it
    aborts on the list of the unset ones, in this order, and has called
    nothing, neither locally nor on the host. *)
Theorem deploy_unconfigured_does_nothing w :
  forallb (provided env) deploy_keys = false ->
  run_task (deploy exec lib env git_ref upgrade) w =
    (Aborted (MissingKeys
                (List.filter (fun k => negb (provided env k)) deploy_keys)),
     start w).
Proof.
  intros Hunset. unfold run_task, deploy.
  unfold bind at 1. unfold require. fold deploy_keys.
  destruct (List.filter _ deploy_keys) as [|k ks] eqn:F; [|reflexivity].
  exfalso.
  assert (forallb (provided env) deploy_keys = true) as Hall.
  { apply forallb_forall. intros k Hk.
    destruct (provided env k) eqn:Hp; [done|].
    assert (In k (List.filter (fun k => negb (provided env k)) deploy_keys))
      as Hin by (apply filter_In; by rewrite Hp).
    rewrite F in Hin. destruct Hin. }
  congruence.
Qed.

Ltac close_segment :=
  lazymatch goal with
  | |- exists rest, ?P = calls ?tr ++ rest /\ _ =>
      exists (drop (length tr) P);
      split; [by_computation|];
      let Hf := fresh "Hf" in
      intros Hf;
      first [ vm_compute in Hf; discriminate Hf
            | split; by_computation ]
  end.

(** X10.  The maintenance directory is not among the keys [deploy] checks
    first: when it is unset, [deploy] still makes the snapshot, calls
    nothing on the host, and aborts on the missing key with the snapshot
    directory left in place. *)
Theorem deploy_without_maintenance_dir w :
  forallb (provided env) deploy_keys = true ->
  maintenance_dir env = None ->
  let out := run_task (deploy exec lib env git_ref upgrade) w in
  let tr := trace out.2 in
  out.1 <> Ok tt /\
  exists rest,
    snapshot_calls lib git_ref (out_at 0 tr) (out_at 1 tr)
    = calls tr ++ rest /\
    (forallb s_ok tr = true ->
     rest = [] /\ out.1 = Aborted (MissingKeys [Kmaintenance_dir])).
Proof.
  intros Hkeys Hmd. cbv zeta. destruct (run_task _ _) as [r st'] eqn:H.
  destruct env as [en [|h hs] [u|] [g|] [sd|] [ds|] md];
    try discriminate Hkeys.
  cbn in Hmd. subst md. whd_run H.
  do 6 (split_exec H exec; [|stop H; split; [done|close_segment]]).
  stop H. split; [done|close_segment].
Qed.

(** X11.  The environment name is asked for only when the requirements
    are installed: when it is unset, [deploy] makes the snapshot, switches
    maintenance mode on and uploads the code, then aborts on the missing
    key; maintenance mode stays on and the snapshot directory stays. *)
Theorem deploy_without_env_name w :
  boolean lib (PyStr "on") = true ->
  forallb (provided env) deploy_keys = true ->
  provided env Kmaintenance_dir = true ->
  env_name env = None ->
  let out := run_task (deploy exec lib env git_ref upgrade) w in
  let tr := trace out.2 in
  out.1 <> Ok tt /\
  exists rest,
    snapshot_calls lib git_ref (out_at 0 tr) (out_at 1 tr) ++
    maintenance_on_calls lib env ++
    upload_calls lib env (out_at 0 tr) (out_at 1 tr) = calls tr ++ rest /\
    (forallb s_ok tr = true ->
     rest = [] /\ out.1 = Aborted (MissingKeys [Kenv_name])).
Proof.
  intros Hon Hkeys Hmd Hen. cbv zeta.
  destruct (run_task _ _) as [r st'] eqn:H.
  destruct env as [en [|h hs] [u|] [g|] [sd|] [ds|] [md|]];
    try discriminate Hkeys; try discriminate Hmd.
  cbn in Hen. subst en. whd_run H.
  do 6 (split_exec H exec; [|stop H; split; [done|close_segment]]).
  rewrite Hon in H. whd_run H.
  do 3 (split_exec H exec; [|stop H; split; [done|close_segment]]).
  stop H. split; [done|close_segment].
Qed.

(** X12.  [maintenance] checks the maintenance directory only: when the
    group is unset, a truthy state still synchronises the maintenance page
    to the host, and the task aborts on the missing attribute before it
    would set the group. *)
Theorem maintenance_on_without_group state w d :
  boolean lib state = true ->
  maintenance_dir env = Some d ->
  group env = None ->
  let out := run_task (maintenance exec lib env state) w in
  let tr := trace out.2 in
  calls tr =
    [ ([], URsync {| local_dir := "./maintenance/"; remote_dir := d;
                     delete := true; default_opts := "-chrtvzP";
                     extra_opts := "--chmod=750"; exclude := [] |}) ] /\
  out.1 <> Ok tt /\
  (forallb s_ok tr = true -> out.1 = Aborted (AttributeError Kgroup)).
Proof.
  intros Hon Hmd Hg. cbv zeta. destruct (run_task _ _) as [r st'] eqn:H.
  destruct env as [en hs u g sd ds md]. cbn in Hmd, Hg. subst md g.
  whd_run H. rewrite Hon in H. whd_run H.
  split_exec H exec; stop H; (split; [reflexivity|]); split; try done.
Qed.

End IncompleteEnv.

(** ** What every run of [deploy] keeps to *)
Section DeployInvariants.
Context {W : Type}.
Variable exec : Ctx -> Call -> W -> Outcome W.
Variable lib : Lib.
Variable env : Env.
Variables (git_ref : string) (upgrade : PyVal).
Hypothesis Hon : boolean lib (PyStr "on") = true.
Hypothesis Hoff : boolean lib (PyStr "off") = false.

Lemma deploy_log_in_plan w s :
  let out := run_task (deploy exec lib env git_ref upgrade) w in
  let tr := trace out.2 in
  s ∈ tr ->
  entry s ∈ deploy_plan lib env git_ref upgrade
              (out_at 0 tr) (out_at 1 tr) (out_at 2 tr).
Proof using Hon Hoff.
  cbv zeta. destruct (run_task _ _) as [r st'] eqn:H. cbn [snd].
  intros Hs.
  pose proof (deploy_shape exec lib Hon Hoff _ _ _ _ _ _ H) as HS.
  cbv zeta in HS. destruct (shape_prefix _ _ _ _ HS) as [rest Hrest].
  rewrite Hrest.
  apply elem_of_app. left. unfold calls. by apply list_elem_of_fmap_2.
Qed.

(** X13.  [deploy] leaves the database server alone: no run of it makes a
    [urun] call, the only way the fabfile creates or drops the database. *)
Theorem deploy_never_calls_urun w s cmd :
  let out := run_task (deploy exec lib env git_ref upgrade) w in
  s ∈ trace out.2 -> s_call s <> URun cmd.
Proof using Hon Hoff.
  cbv zeta. intros Hs%deploy_log_in_plan Hcall.
  destruct s as [c k o]. cbn in Hcall. subst k.
  unfold entry in Hs. cbn in Hs.
  unfold deploy_plan, snapshot_calls, maintenance_on_calls, upload_calls,
    provision_calls, maintenance_off_calls, cleanup_calls, report_calls in Hs.
  cbn [app] in Hs. not_in Hs.
Qed.


(** X15.  A successful [deploy] uploads the directory it has made and
    removes that same directory at the end: the path given to [mkdir], the
    local directory of the upload and the path given to the last [rm -fr]
    are one string. *)
Theorem deploy_removes_what_it_created w st' :
  run_task (deploy exec lib env git_ref upgrade) w = (Ok tt, st') ->
  exists tmp_dir a,
    (s_call <$> trace st') !! 4 =
      Some (ULocal ("mkdir " +:+ tmp_dir) false) /\
    (s_call <$> trace st') !! 8 = Some (URsync a) /\
    local_dir a = tmp_dir /\
    (s_call <$> trace st') !! 19 =
      Some (ULocal ("rm -fr " +:+ tmp_dir) false) /\
    length (trace st') = 22.
Proof using Hon Hoff.
  intros H.
  pose proof (deploy_shape exec lib Hon Hoff _ _ _ _ _ _ H) as HS.
  cbv zeta in HS. apply shape_ok in HS as [HP _].
  assert (s_call <$> trace st' = (calls (trace st')).*2) as ->.
  { unfold calls. by rewrite <- list_fmap_compose. }
  assert (length (trace st') = 22) as Hlen.
  { rewrite <- (calls_length (trace st')), HP. reflexivity. }
  rewrite HP. eexists _, _. repeat split; try reflexivity. exact Hlen.
Qed.

End DeployInvariants.

(** ** The maintenance toggle, switched back and forth *)
Section Toggle.
Variable matches : string -> string -> bool.
Variable login_group : string.
Variable lib : Lib.
Variable env : Env.
Variables (d g : string).

Let exec := Fs.exec_fs matches login_group.

(** X16.  On the model of the remote directories: [maintenance('on')]
    followed by [maintenance('off')] leaves in the maintenance directory
    the hidden files of the local maintenance page and nothing else (so
    nothing at all when the page has no hidden file); and
    [maintenance('off')] followed by [maintenance('on')] leaves the host
    as [maintenance('on')] alone does. *)
Theorem maintenance_toggle_composes fw l t :
  boolean lib (PyStr "on") = true ->
  boolean lib (PyStr "off") = false ->
  maintenance_dir env = Some d ->
  group env = Some g ->
  Fs.local_fs fw !! "./maintenance/" = Some l ->
  Fs.remote_fs fw !! d = Some t ->
  let on := maintenance exec lib env (PyStr "on") in
  let off := maintenance exec lib env (PyStr "off") in
  (exists st t',
     run_task (on ;; off) fw = (Ok tt, st) /\
     Fs.remote_fs (world st) !! d = Some t' /\
     (forall p, t' !! p =
                if Fs.hidden p
                then (fun c => {| Fs.content := c; Fs.owner_group := g |})
                       <$> l !! p
                else None) /\
     ((forall p, is_Some (l !! p) -> Fs.hidden p = false) -> t' = ∅)) /\
  (exists st1 st2,
     run_task (off ;; on) fw = (Ok tt, st1) /\
     run_task on fw = (Ok tt, st2) /\
     world st1 = world st2).
Proof.
  intros Hon Hoff Hdir Hg Hl Ht on off. split.
  - destruct (maintenance_on_fs matches login_group lib env d g Hdir
                (PyStr "on") {| world := fw; trace := [] |} l Hon Hg Hl)
      as [tr1 H1].
    cbn [world] in H1.
    eexists _, (Fs.rm_rf_star (Fs.populated g l)).
    unfold run_task, start, on, off, bind, exec. rewrite H1.
    rewrite (maintenance_off_fs matches login_group lib env d Hdir
               (PyStr "off") _ (Fs.populated g l) Hoff)
      by apply FsFacts.remote_set_remote.
    split; [reflexivity|]. cbn [world].
    split; [apply FsFacts.remote_set_remote|]. split.
    + intros p. rewrite FsFacts.lookup_rm_rf_star. unfold Fs.populated.
      by rewrite lookup_fmap.
    + intros Hvis. apply FsFacts.rm_rf_star_visible. intros p.
      unfold Fs.populated. rewrite lookup_fmap, fmap_is_Some. apply Hvis.
  - destruct (maintenance_on_fs matches login_group lib env d g Hdir
                (PyStr "on") {| world := fw; trace := [] |} l Hon Hg Hl)
      as [tr2 H2].
    pose proof (maintenance_off_fs matches login_group lib env d Hdir
                  (PyStr "off") {| world := fw; trace := [] |} t Hoff Ht)
      as H1.
    cbn [world trace] in H1, H2.
    destruct (maintenance_on_fs matches login_group lib env d g Hdir
                (PyStr "on")
                {| world := Fs.set_remote fw d (Fs.rm_rf_star t);
                   trace := [] ++
                     [{| s_ctx := [InDir d]; s_call := Run "rm -rf ./*";
                         s_out := Some "" |}] |}
                l Hon Hg Hl) as [tr3 H3].
    cbn [world] in H3.
    eexists _, _. unfold run_task, start, on, off, bind, exec.
    rewrite H1, H2, H3. split; [reflexivity|]. split; [reflexivity|].
    cbn [world]. apply FsFacts.set_remote_twice.
Qed.

End Toggle.

(** ** The requirements file *)
Section Requirements.
Context {W : Type}.
Variable exec : Ctx -> Call -> W -> Outcome W.
Variable lib : Lib.
Variable env : Env.

Lemma ends_with_slash_app (s t : string) :
  t <> "" -> ends_with_slash (s +:+ t) = ends_with_slash t.
Proof.
  intros Ht. induction s as [|c s IH]; [reflexivity|].
  change (String c s +:+ t) with (String c (s +:+ t)).
  destruct (s +:+ t) as [|c' r] eqn:E.
  - destruct s; [by cbn in E|discriminate E].
  - rewrite <- IH. reflexivity.
Qed.

Lemma append_nonempty (s t : string) :
  t <> "" -> String.eqb (s +:+ t) "" = false.
Proof.
  intros Ht. apply String.eqb_neq. destruct s; [done|discriminate].
Qed.

Lemma append_assoc (s t u : string) : (s +:+ t) +:+ u = s +:+ t +:+ u.
Proof.
  induction s as [|c s IH]; [reflexivity|].
  change ((String c s +:+ t) +:+ u) with (String c ((s +:+ t) +:+ u)).
  by rewrite IH.
Qed.

Lemma starts_with_slash_txt (s : string) :
  starts_with_slash (s +:+ ".txt") = starts_with_slash s.
Proof. by destruct s. Qed.

(** X17.  The requirements file [install_requirements] hands to pip is
    [<site_dir>/requirements/<name>.txt], resolved by [realpath], where
    <name> is [devel] for the [vagrant] environment and the name of the
    environment otherwise.  An environment name that starts with a slash
    makes the path absolute on its own: the site directory is dropped. *)
Theorem requirements_file upgrade w n site ds :
  env_name env = Some n -> site_dir env = Some site ->
  django_settings env = Some ds ->
  site <> "" -> ends_with_slash site = false ->
  let name := if String.eqb n "vagrant" then "devel" else n in
  let file :=
    if starts_with_slash n then name +:+ ".txt"
    else site +:+ "/requirements/" +:+ name +:+ ".txt" in
  s_call <$> trace (run_task (install_requirements exec lib env upgrade) w).2
  = [Run ("pip install -" +:+ (if truthy upgrade then "U" else "") +:+ "r "
          +:+ realpath lib file)].
Proof.
  intros Hn Hs Hd Hsite Hslash name file.
  rewrite (install_requirements_calls exec lib env upgrade w n site ds)
    by done.
  unfold pip_command.
  enough (requirements_path lib env = realpath lib file) as -> by done.
  unfold requirements_path. rewrite Hn, Hs. cbn [default from_option id].
  fold name. f_equal. unfold os_path_join. cbn [fold_left].
  assert (path_join2 site "requirements" = site +:+ "/requirements") as ->.
  { unfold path_join2. cbn [starts_with_slash Ascii.eqb].
    rewrite Hslash. apply String.eqb_neq in Hsite. by rewrite Hsite. }
  assert (starts_with_slash name = starts_with_slash n) as Hsl.
  { unfold name. destruct (String.eqb_spec n "vagrant") as [->|]; done. }
  unfold path_join2, file.
  rewrite starts_with_slash_txt, Hsl.
  destruct (starts_with_slash n); [reflexivity|].
  rewrite append_nonempty by done.
  rewrite ends_with_slash_app by done.
  change (ends_with_slash "/requirements") with false. cbn [orb].
  rewrite append_assoc. reflexivity.
Qed.

End Requirements.

(** ** The further properties on closed inputs *)

Lemma bootstrap_unconfigured_witness :
  let out :=
    run_task (bootstrap Sample.exec_ok Sample.lib Unset.bare_env) tt in
  s_call <$> trace out.2 =
    [URun "createdb luke -l en_US.UTF-8 -E UTF8 -T template0"] /\
  out.1 <> Ok tt.
Proof.
  exact (bootstrap_unconfigured Sample.exec_ok Sample.lib Unset.bare_env tt
           eq_refl).
Defined.

Lemma no_command_without_environment_witness :
  run_task (createsuperuser Sample.exec_ok Unset.bare_env) tt =
    (Aborted (MissingKeys [Ksite_dir; Kdjango_settings]), start tt) /\
  run_task (runserver Sample.exec_ok Unset.bare_env) tt =
    (Aborted (MissingKeys [Ksite_dir; Kdjango_settings]), start tt).
Proof.
  pose proof (no_command_without_environment Sample.exec_ok Sample.lib
                Unset.bare_env tt eq_refl)
    as (H1 & _ & _ & _ & _ & _ & _ & _ & _ & H2 & _).
  split; [exact H1|exact H2].
Defined.

Lemma startapp_calls_witness :
  calls (trace (run_task (startapp Sample.exec_ok Sample.env "blog") tt).2) =
    [ ([InDir "/srv/luke/site";
        InEnv [("DJANGO_SETTINGS_MODULE", "luke.settings.production")]],
       Run "python manage.py startapp blog") ] /\
  calls (trace (run_task (startapp Sample.exec_ok Sample.env "") tt).2) = [].
Proof.
  split.
  - exact (startapp_calls Sample.exec_ok Sample.env "blog" tt
             "/srv/luke/site" "luke.settings.production" eq_refl eq_refl).
  - exact (startapp_calls Sample.exec_ok Sample.env "" tt
             "/srv/luke/site" "luke.settings.production" eq_refl eq_refl).
Defined.


Lemma deploy_unconfigured_does_nothing_witness :
  run_task (deploy Sample.exec_ok Sample.lib Unset.bare_env "v1.2.0"
              (PyBool false)) tt =
    (Aborted (MissingKeys [Khosts; Kgroup; Ksite_dir; Kdjango_settings]),
     start tt).
Proof.
  exact (deploy_unconfigured_does_nothing Sample.exec_ok Sample.lib
           Unset.bare_env "v1.2.0" (PyBool false) tt eq_refl).
Defined.

Lemma deploy_without_maintenance_dir_witness :
  let out :=
    run_task (deploy Sample.exec_ok Sample.lib Unset.no_maintenance_dir
                "v1.2.0" (PyBool false)) tt in
  let tr := trace out.2 in
  out.1 <> Ok tt /\
  exists rest,
    snapshot_calls Sample.lib "v1.2.0" (out_at 0 tr) (out_at 1 tr)
    = calls tr ++ rest /\
    (forallb s_ok tr = true ->
     rest = [] /\ out.1 = Aborted (MissingKeys [Kmaintenance_dir])).
Proof.
  exact (deploy_without_maintenance_dir Sample.exec_ok Sample.lib
           Unset.no_maintenance_dir "v1.2.0" (PyBool false) tt
           eq_refl eq_refl).
Defined.

Lemma deploy_without_env_name_witness :
  let out :=
    run_task (deploy Sample.exec_ok Sample.lib Unset.no_env_name
                "v1.2.0" (PyBool false)) tt in
  let tr := trace out.2 in
  out.1 <> Ok tt /\
  exists rest,
    snapshot_calls Sample.lib "v1.2.0" (out_at 0 tr) (out_at 1 tr) ++
    maintenance_on_calls Sample.lib Unset.no_env_name ++
    upload_calls Sample.lib Unset.no_env_name (out_at 0 tr) (out_at 1 tr)
    = calls tr ++ rest /\
    (forallb s_ok tr = true ->
     rest = [] /\ out.1 = Aborted (MissingKeys [Kenv_name])).
Proof.
  exact (deploy_without_env_name Sample.exec_ok Sample.lib
           Unset.no_env_name "v1.2.0" (PyBool false) tt
           eq_refl eq_refl eq_refl eq_refl).
Defined.

Lemma maintenance_on_without_group_witness :
  let out :=
    run_task (maintenance Sample.exec_ok Sample.lib Unset.no_group
                (PyStr "on")) tt in
  let tr := trace out.2 in
  calls tr =
    [ ([], URsync {| local_dir := "./maintenance/";
                     remote_dir := "/srv/luke/maintenance";
                     delete := true; default_opts := "-chrtvzP";
                     extra_opts := "--chmod=750"; exclude := [] |}) ] /\
  out.1 <> Ok tt /\
  (forallb s_ok tr = true -> out.1 = Aborted (AttributeError Kgroup)).
Proof.
  exact (maintenance_on_without_group Sample.exec_ok Sample.lib
           Unset.no_group (PyStr "on") tt "/srv/luke/maintenance"
           eq_refl eq_refl eq_refl).
Defined.

Lemma deploy_step_in_log (i : nat) :
  i < 22 ->
  Closed.nth_step i (trace Closed.ok_state) ∈
    trace (run_task (deploy Sample.exec_ok Sample.lib Sample.env "v1.2.0"
                       (PyBool false)) tt).2.
Proof.
  intros Hi. rewrite ok_run_eq. cbn [snd].
  apply list_elem_of_lookup. exists i.
  do 22 (destruct i as [|i]; [reflexivity|]). lia.
Qed.

Lemma deploy_never_calls_urun_witness :
  s_call (Closed.nth_step 0 (trace Closed.ok_state)) <> URun "dropdb luke".
Proof.
  apply (deploy_never_calls_urun Sample.exec_ok Sample.lib Sample.env
           "v1.2.0" (PyBool false) eq_refl eq_refl tt).
  apply deploy_step_in_log. lia.
Defined.


Lemma deploy_removes_what_it_created_witness :
  exists tmp_dir a,
    (s_call <$> trace Closed.ok_state) !! 4 =
      Some (ULocal ("mkdir " +:+ tmp_dir) false) /\
    (s_call <$> trace Closed.ok_state) !! 8 = Some (URsync a) /\
    local_dir a = tmp_dir /\
    (s_call <$> trace Closed.ok_state) !! 19 =
      Some (ULocal ("rm -fr " +:+ tmp_dir) false) /\
    length (trace Closed.ok_state) = 22.
Proof.
  exact (deploy_removes_what_it_created Sample.exec_ok Sample.lib Sample.env
           "v1.2.0" (PyBool false) eq_refl eq_refl tt Closed.ok_state
           ok_run_eq).
Defined.

Lemma maintenance_toggle_composes_witness :
  let exec := Fs.exec_fs Closed.no_pattern "luke" in
  let on := maintenance exec Sample.lib Sample.env (PyStr "on") in
  let off := maintenance exec Sample.lib Sample.env (PyStr "off") in
  exists st t',
    run_task (on ;; off) Closed.hidden_world = (Ok tt, st) /\
    Fs.remote_fs (world st) !! "/srv/luke/maintenance" = Some t' /\
    t' = ∅.
Proof.
  destruct (maintenance_toggle_composes Closed.no_pattern "luke" Sample.lib
              Sample.env "/srv/luke/maintenance" "www-data"
              Closed.hidden_world Closed.page
              {[ "index.html" := {| Fs.content := "<h1>Back soon</h1>";
                                    Fs.owner_group := "www-data" |};
                 ".htaccess" := {| Fs.content := "Require all denied";
                                   Fs.owner_group := "www-data" |} ]}
              eq_refl eq_refl eq_refl eq_refl eq_refl eq_refl)
    as [(st & t' & Hrun & Ht & _ & Hempty) _].
  exists st, t'. split; [exact Hrun|]. split; [exact Ht|].
  apply Hempty. intros p. unfold Closed.page.
  intros [c Hc]. apply lookup_singleton_Some in Hc as [<- _]. reflexivity.
Defined.

Lemma requirements_file_witness :
  s_call <$>
    trace (run_task (install_requirements Sample.exec_ok Sample.lib
                       Sample.env (PyBool false)) tt).2
  = [Run "pip install -r /srv/luke/site/requirements/production.txt"].
Proof.
  exact (requirements_file Sample.exec_ok Sample.lib Sample.env
           (PyBool false) tt "production" "/srv/luke/site"
           "luke.settings.production" eq_refl eq_refl eq_refl
           ltac:(discriminate) eq_refl).
Defined.
